(** * PyGUIde: the dependency manager of the editor

    A shallow embedding of class [DependencyManager] of [PyGUIde.py]
    (import extraction, standard-library classification, installed and
    missing package computation, installation, environment detection and
    creation), followed by the properties of it that the specification
    states.

    Conventions of the embedding.
    - A Python [str] is a [string]. [Str.lower] is [str.lower] on the
      letters A-Z: every name that reaches it in [get_missing_packages]
      has passed the identifier test of [is_standard_library], so it has
      no other cased character. Where the text is arbitrary (the names
      that the package manager lists, the source text whose length
      [analyze_code] tests), what Python computes depends on the alphabet
      and is a parameter: [str_lower] for [str.lower], [len_strip] for
      [len(s.strip())].
    - A Python [set] of strings is a [gset string], a [dict] keyed by
      strings a [gmap string _].  Iterating over a set visits [elements]
      of it; no result below depends on that order.
    - What the code asks of the interpreter, the file system and child
      processes is a parameter of the function that asks: an exception
      raised there is a value of [exn] in a [result]. *)

From Stdlib Require Import Ascii String.
From stdpp Require Import base gmap sets list strings sorting.

Set Warnings "-register-all,-notation-for-abbreviation,-clear-no-such-hyp".

(** ** Strings *)

Module Str.

Definition in_range (lo hi : N) (c : ascii) : bool :=
  let n := N_of_ascii c in ((lo <=? n) && (n <=? hi))%N.

Definition is_upper : ascii → bool := in_range 65 90.
Definition is_lower : ascii → bool := in_range 97 122.
Definition is_digit : ascii → bool := in_range 48 57.
Definition is_underscore (c : ascii) : bool := (N_of_ascii c =? 95)%N.
Definition is_newline (c : ascii) : bool := (N_of_ascii c =? 10)%N.

(** [str.lower] on one character. *)
Definition lower_char (c : ascii) : ascii :=
  if is_upper c then ascii_of_N (N_of_ascii c + 32) else c.

(** [s.lower()] *)
Fixpoint lower (s : string) : string :=
  match s with
  | EmptyString => EmptyString
  | String c s' => String (lower_char c) (lower s')
  end.

(** The class [[a-zA-Z_]]. *)
Definition is_start (c : ascii) : bool :=
  is_lower c || is_upper c || is_underscore c.

(** The class [[a-zA-Z0-9_]]. *)
Definition is_word (c : ascii) : bool := is_start c || is_digit c.

(** [[a-zA-Z0-9_]*$] : in Python's [re], [$] matches at the end of the
    string and also just before a newline that ends the string. *)
Fixpoint match_tail (s : string) : bool :=
  match s with
  | EmptyString => true
  | String c s' =>
      if is_word c then match_tail s'
      else is_newline c && bool_decide (s' = EmptyString)
  end.

(** [re.match(r'^[a-zA-Z_][a-zA-Z0-9_]*$', s)] is not [None]. *)
Definition match_identifier (s : string) : bool :=
  match s with
  | EmptyString => false
  | String c s' => is_start c && match_tail s'
  end.

(** [sub in s] *)
Fixpoint contains (sub s : string) : bool :=
  String.prefix sub s ||
  match s with
  | EmptyString => false
  | String _ s' => contains sub s'
  end.

Definition is_dot (c : ascii) : bool := (N_of_ascii c =? 46)%N.

(** [s.split('.')[0]] : what precedes the first dot, all of [s] when it
    has none. *)
Fixpoint split_dot_head (s : string) : string :=
  match s with
  | EmptyString => EmptyString
  | String c s' => if is_dot c then EmptyString else String c (split_dot_head s')
  end.

(** No character of [s] is a dot. *)
Fixpoint dotless (s : string) : bool :=
  match s with
  | EmptyString => true
  | String c s' => negb (is_dot c) && dotless s'
  end.

(** The order of [sorted] on strings: lexicographic on character codes. *)
Definition lt (a b : string) : Prop := String.ltb a b = true.

End Str.

(** ** Exceptions and results *)

(** The exceptions that the modelled code can meet; all of them are
    subclasses of Python's [Exception]. *)
Inductive exn : Type :=
| CalledProcessError (returncode : Z) (str output : string)
| OSError (msg : string)
| SyntaxError (msg : string)
| ValueError (msg : string)
| TypeError (msg : string)
| KeyError (key : string)
| AttributeError (msg : string)
| Exception (msg : string).

Inductive result (A : Type) : Type :=
| Return (a : A)
| Raise (e : exn).
Arguments Return {A} a.
Arguments Raise {A} e.

#[global] Instance result_ret : MRet result := λ A a, Return a.
#[global] Instance result_bind : MBind result := λ A B k r,
  match r with
  | Return a => k a
  | Raise e => Raise e
  end.

(** ** The manager's state *)

(** The attributes of a [DependencyManager]; [None] is Python's [None]. *)
Record manager : Type := Manager {
  project_path : option string;
  venv_path : option string;
  python_executable : string
}.

(** Truth value of an attribute that is [None] or a string: [None] and ['']
    are false. *)
Definition truthy (p : option string) : bool :=
  match p with
  | None => false
  | Some s => negb (bool_decide (s = EmptyString))
  end.

(** ** Child processes *)

(** What a finished child process leaves behind. *)
Record completed_process : Type := CompletedProcess {
  returncode : Z;
  stdout : string;
  stderr : string
}.

(** [subprocess.run(cmd, check=True, capture_output=True, text=True)] over
    [run], the run without the check: a non-zero exit status becomes a
    [CalledProcessError]. *)
Definition run_checked (run : list string → result completed_process)
    (cmd : list string) : result completed_process :=
  p ← run cmd;
  if bool_decide (returncode p = 0%Z) then Return p
  else Raise (CalledProcessError (returncode p)
                "Command returned non-zero exit status."
                (if bool_decide (stderr p = EmptyString) then stdout p else stderr p)).

(** ** Standard-library classification *)

(** What [importlib.util.find_spec(name)] does for a top-level name: it
    raises [ValueError], [ModuleNotFoundError] or [ImportError], or returns
    [None], or returns a spec, of which the code reads [origin]. *)
Inductive find_spec_result : Type :=
| FindRaises
| FindNone
| FindSpec (origin : option string).

Section Classifier.

(** [sys.builtin_module_names] and [importlib.util.find_spec] of the
    host interpreter. *)
Variable builtin_module_names : list string.
Variable find_spec : string → find_spec_result.

Definition is_standard_library (module_name : string) : bool :=
  if negb (Str.match_identifier module_name) then true
  else if bool_decide (module_name ∈ builtin_module_names) then true
  else match find_spec module_name with
       | FindRaises => false
       | FindNone => false
       | FindSpec None => true
       | FindSpec (Some origin) =>
           if bool_decide (origin = "built-in") then true
           else negb (Str.contains "site-packages" origin)
                && negb (Str.contains "dist-packages" origin)
       end.

End Classifier.

(** ** Installed packages *)

(** The values that [json.loads] builds. The fields of a [PyDict] have
    distinct keys, as those of a [dict] do. *)
Inductive pyval : Type :=
| PyNone
| PyBool (b : bool)
| PyNumber (literal : string)
| PyStr (s : string)
| PyList (items : list pyval)
| PyDict (fields : list (string * pyval)).

(** [for pkg in packages] : the values that iterating [packages] yields. *)
Definition py_iter (v : pyval) : result (list pyval) :=
  match v with
  | PyList items => Return items
  | PyDict fields => Return (PyStr <$> fields.*1)
  | PyStr s => Return ((λ c, PyStr (String c EmptyString)) <$> list_ascii_of_string s)
  | _ => Raise (TypeError "object is not iterable")
  end.

(** [v[key]] for a string [key]. *)
Definition py_getitem (v : pyval) (key : string) : result pyval :=
  match v with
  | PyDict fields =>
      match list_find (λ kv, kv.1 = key) fields with
      | Some (_, kv) => Return kv.2
      | None => Raise (KeyError key)
      end
  | PyList _ => Raise (TypeError "list indices must be integers or slices, not str")
  | PyStr _ => Raise (TypeError "string indices must be integers, not 'str'")
  | _ => Raise (TypeError "object is not subscriptable")
  end.

(** [v.lower()], [str_lower] being [str.lower] on text of any alphabet. *)
Definition py_lower (str_lower : string → string) (v : pyval) : result string :=
  match v with
  | PyStr s => Return (str_lower s)
  | _ => Raise (AttributeError "object has no attribute 'lower'")
  end.

(** [{pkg['name'].lower(): pkg['version'] for pkg in items}], from the
    entries already built. *)
Fixpoint packages_dict (str_lower : string → string)
    (acc : gmap string pyval) (items : list pyval)
    : result (gmap string pyval) :=
  match items with
  | [] => Return acc
  | pkg :: rest =>
      name ← py_getitem pkg "name";
      key ← py_lower str_lower name;
      version ← py_getitem pkg "version";
      packages_dict str_lower (<[key := version]> acc) rest
  end.

Section Installed.

(** [subprocess.run] without its check, [json.loads], and [str.lower] on
    the names of the listing. *)
Variable run : list string → result completed_process.
Variable json_loads : string → result pyval.
Variable str_lower : string → string.

(** The command line of the query. *)
Definition pip_list (self : manager) : list string :=
  [python_executable self; "-m"; "pip"; "list"; "--format=json"].

(** The [try] block of [get_installed_packages]. *)
Definition list_packages (self : manager) : result (gmap string pyval) :=
  result ← run_checked run (pip_list self);
  packages ← json_loads (stdout result);
  items ← py_iter packages;
  packages_dict str_lower ∅ items.

Definition get_installed_packages (self : manager)
    : result (gmap string pyval) :=
  match list_packages self with
  | Return d => Return d
  | Raise _ => Return ∅      (* except Exception: return {} *)
  end.

End Installed.

(** ** Missing packages *)

(** The table of [get_missing_packages]: import name to package name. *)
Definition import_to_package_map : gmap string string :=
  list_to_map
    [ ("pil", "pillow");
      ("yaml", "pyyaml");
      ("cv2", "opencv-python");
      ("skimage", "scikit-image");
      ("sklearn", "scikit-learn");
      ("bs4", "beautifulsoup4") ].

(** [d.get(k, dflt)] *)
Definition dict_get {V} (d : gmap string V) (k : string) (dflt : V) : V :=
  default dflt (d !! k).

(** [import_to_package_map.get(imp_lower, imp_lower)] : the name looked up
    among the installed packages. *)
Definition package_name (imp : string) : string :=
  let imp_lower := Str.lower imp in
  dict_get import_to_package_map imp_lower imp_lower.

(** [import_to_package_map.get(imp_lower, imp)] : the name handed to the
    installer, the alias-resolved form of [imp]. *)
Definition install_name (imp : string) : string :=
  let imp_lower := Str.lower imp in
  dict_get import_to_package_map imp_lower imp.

Section Missing.

Variable builtin_module_names : list string.
Variable find_spec : string → find_spec_result.

(** One turn of the loop over [imports]. *)
Definition missing_step {V} (installed : gmap string V)
    (missing : gset string) (imp : string) : gset string :=
  if is_standard_library builtin_module_names find_spec imp then missing
  else
    if bool_decide (installed !! package_name imp = None)
    then missing ∪ {[ install_name imp ]}
    else missing.

(** [get_missing_packages] from its second line on, [installed] being
    known. *)
Definition missing_packages {V} (installed : gmap string V)
    (imports : gset string) : list string :=
  let missing := foldl (missing_step installed) ∅ (elements imports) in
  merge_sort String.le (elements missing).

Variable run : list string → result completed_process.
Variable json_loads : string → result pyval.
Variable str_lower : string → string.

Definition get_missing_packages (self : manager) (imports : gset string)
    : result (list string) :=
  installed ← get_installed_packages run json_loads str_lower self;
  Return (missing_packages installed imports).

End Missing.

(** ** Import extraction *)

(** An [ast.alias]. *)
Record alias : Type := Alias {
  name : string;
  asname : option string
}.

(** The nodes of a syntax tree, as far as [analyze_imports] tells them
    apart: [ast.Import], [ast.ImportFrom], and any other node with its
    child nodes. *)
Inductive node : Type :=
| Import (names : list alias)
| ImportFrom (module : option string) (names : list alias) (level : nat)
| Node (children : list node).

(** [ast.walk(tree)] : the node and all its descendants, each once. The
    library fixes no order, and the code collects into a set. *)
Fixpoint walk (n : node) : list node :=
  n :: match n with
       | Node children => concat (walk <$> children)
       | _ => []
       end.

(** The two branches of the loop over [ast.walk(tree)]. *)
Definition node_imports (imports : gset string) (n : node) : gset string :=
  match n with
  | Import names =>
      foldl (λ acc a, acc ∪ {[ Str.split_dot_head (name a) ]}) imports names
  | ImportFrom module _ _ =>
      if truthy module
      then imports ∪ {[ Str.split_dot_head (default EmptyString module) ]}
      else imports
  | Node _ => imports
  end.

Section Extractor.

(** [open(path, 'r', encoding='utf-8').read()] and [ast.parse]. *)
Variable read_file : string → result string.
Variable ast_parse : string → result node.

(** The [try] block up to the tree: no name is added before it ends. *)
Definition parse_file (file_path : string) : result node :=
  content ← read_file file_path;
  ast_parse content.

(** One turn of the loop over [code_files]. *)
Definition file_step (imports : gset string) (file_path : string)
    : gset string :=
  match parse_file file_path with
  | Return tree => foldl node_imports imports (walk tree)
  | Raise _ => imports       (* except Exception: continue *)
  end.

Definition analyze_imports (code_files : list string) : gset string :=
  foldl file_step ∅ code_files.

End Extractor.

(** ** Installation *)

(** A child process started by [subprocess.Popen] with its output piped:
    the lines that [readline] yields before the empty string, and the exit
    status that [wait] leaves in [returncode]. *)
Record process : Type := Process {
  proc_lines : list string;
  proc_returncode : Z
}.

(** A sink may raise; [deliver] is the loop
    [for line in iter(process.stdout.readline, ''): output_callback(line)]
    and returns the lines the sink has taken with the way the loop ended. *)
Definition sink : Type := string → result unit.

Fixpoint deliver (output_callback : sink) (taken lines : list string)
    : list string * result unit :=
  match lines with
  | [] => (taken, Return ())
  | line :: rest =>
      match output_callback line with
      | Return _ => deliver output_callback (taken ++ [line]) rest
      | Raise e => (taken, Raise e)
      end
  end.

(** [f"Error: {e}\n{e.stderr or e.stdout}\n"] *)
Definition error_report (str output : string) : string :=
  "Error: " +:+ str +:+ String "010"%char output +:+ String "010"%char EmptyString.

Section Installer.

(** [subprocess.Popen] (it raises when the child cannot be started) and
    [subprocess.run] without its check. *)
Variable popen : list string → result process.
Variable run : list string → result completed_process.

(** The [try] block of [install_packages]. *)
Definition install_try (self : manager) (packages : list string)
    (output_callback : option sink) : list string * result bool :=
  let cmd := [python_executable self; "-m"; "pip"; "install"] ++ packages in
  match output_callback with
  | Some cb =>
      match popen cmd with
      | Raise e => ([], Raise e)
      | Return process =>
          let '(taken, r) := deliver cb [] (proc_lines process) in
          (taken, _ ← r; Return (bool_decide (proc_returncode process = 0%Z)))
      end
  | None => ([], _ ← run_checked run cmd; Return true)
  end.

(** [install_packages]: the lines handed to the sink, and the value
    returned or the exception raised. Only [CalledProcessError] has a
    handler. *)
Definition install_packages (self : manager) (packages : list string)
    (output_callback : option sink) : list string * result bool :=
  match packages with
  | [] => ([], Return true)
  | _ :: _ =>
      let '(taken, r) := install_try self packages output_callback in
      match r with
      | Raise (CalledProcessError _ str output) =>
          match output_callback with
          | Some cb =>
              match cb (error_report str output) with
              | Return _ => (taken ++ [error_report str output], Return false)
              | Raise e => (taken, Raise e)
              end
          | None => (taken, Return false)
          end
      | _ => (taken, r)
      end
  end.

End Installer.

(** ** Environments *)

Definition venv_candidates : list string := ["venv"; "env"; ".venv"; ".env"].

Section Environment.

(** The host: [sys.executable], [os.name], [os.path.join] of two
    components (a join of three is two joins), and a file system with
    [os.path.isdir], [os.path.exists] and [venv.create(_, with_pip=True)],
    which changes the file system and may raise. *)
Variable sys_executable : string.
Variable os_name : string.
Variable path_join : string → string → string.
Variable FS : Type.
Variable isdir : FS → string → bool.
Variable exists_ : FS → string → bool.
Variable venv_create : FS → string → FS * result unit.

(** The interpreter of the environment rooted at [root]. *)
Definition python_exe_in (root : string) : string :=
  if bool_decide (os_name = "nt")
  then path_join (path_join root "Scripts") "python.exe"
  else path_join (path_join root "bin") "python".

(** The test that a candidate passes in [detect_venv]. *)
Definition is_venv (fs : FS) (potential_venv : string) : bool :=
  isdir fs potential_venv && exists_ fs (python_exe_in potential_venv).

(** The loop of [detect_venv] over the candidates left. *)
Fixpoint detect_loop (fs : FS) (self : manager) (root : string)
    (candidates : list string) : manager * bool :=
  match candidates with
  | [] =>
      (Manager (project_path self) None sys_executable, false)
  | candidate :: rest =>
      let potential_venv := path_join root candidate in
      if is_venv fs potential_venv
      then (Manager (project_path self) (Some potential_venv)
              (python_exe_in potential_venv), true)
      else detect_loop fs self root rest
  end.

Definition detect_venv (fs : FS) (self : manager) : manager * bool :=
  if truthy (project_path self)
  then detect_loop fs self (default EmptyString (project_path self))
         venv_candidates
  else (self, false).

(** [DependencyManager(project_path)] *)
Definition init (fs : FS) (project_path : option string) : manager :=
  let self := Manager project_path None sys_executable in
  if truthy project_path then (detect_venv fs self).1 else self.

(** [create_venv]: the file system and the manager afterwards, and the
    value returned or the exception raised. *)
Definition create_venv (fs : FS) (self : manager) (venv_name : string)
    : FS * manager * result bool :=
  if negb (truthy (project_path self))
  then (fs, self, Raise (Exception "No project path set"))
  else
    let venv_path := path_join (default EmptyString (project_path self)) venv_name in
    if exists_ fs venv_path
    then (fs, self,
          Raise (Exception ("Virtual environment '" +:+ venv_name +:+ "' already exists")))
    else
      match venv_create fs venv_path with
      | (fs', Raise e) => (fs', self, Raise e)
      | (fs', Return _) =>
          (fs', Manager (project_path self) (Some venv_path) (python_exe_in venv_path),
           Return true)
      end.

End Environment.

(** A host to run the definitions on: POSIX path joining, and a file
    system that is the list of its paths, where creating an environment
    adds its root, its [bin] directory and its interpreter. *)
Module Posix.

Definition ends_with_slash (s : string) : bool :=
  match String.rev s with
  | String c _ => bool_decide (c = "/"%char)
  | EmptyString => false
  end.

(** [posixpath.join(a, b)] *)
Definition join (a b : string) : string :=
  if String.prefix "/" b then b
  else if bool_decide (a = EmptyString) || ends_with_slash a then a +:+ b
  else a +:+ "/" +:+ b.

Definition isdir (fs : list string) (p : string) : bool := bool_decide (p ∈ fs).
Definition exists_ (fs : list string) (p : string) : bool := bool_decide (p ∈ fs).

Definition venv_create (fs : list string) (p : string)
    : list string * result unit :=
  (p :: join p "bin" :: join (join p "bin") "python" :: fs, Return ()).

Definition sys_executable : string := "/usr/bin/python3".
Definition os_name : string := "posix".

(** A project with two environments, and an empty one. *)
Definition two_envs : list string :=
  ["/p"; "/p/env"; "/p/env/bin"; "/p/env/bin/python";
   "/p/venv"; "/p/venv/bin"; "/p/venv/bin/python"].
Definition no_env : list string := ["/p"; "/p/main.py"].

(** A project whose one environment is under the third candidate name,
    beside a directory [env] that holds no interpreter. *)
Definition one_env : list string :=
  ["/p"; "/p/env"; "/p/.venv"; "/p/.venv/bin"; "/p/.venv/bin/python"].

Definition opened : manager := Manager (Some "/p") None sys_executable.

(** A child that cannot be started, one that fails, and a sink that
    takes every line. *)
Definition popen_unavailable (cmd : list string) : result process :=
  Raise (OSError "No such file or directory").
Definition popen_failing (cmd : list string) : result process :=
  Return (Process ["ERROR: No matching distribution found"] 1).
Definition run_unavailable (cmd : list string) : result completed_process :=
  Raise (OSError "No such file or directory").
Definition run_failing (cmd : list string) : result completed_process :=
  Return (CompletedProcess 1 "" "ERROR: No matching distribution found").
Definition take_line : sink := λ _, Return ().

End Posix.

(** A host interpreter to run the classifier on: two built-in modules, a
    standard-library module found in the interpreter's own directory, a
    third-party package found under [site-packages], nothing else. *)
Module Host.

Definition builtin_module_names : list string := ["sys"; "builtins"].

Definition find_spec (module_name : string) : find_spec_result :=
  if bool_decide (module_name = "os")
  then FindSpec (Some "/usr/lib/python3.11/os.py")
  else if bool_decide (module_name = "requests")
  then FindSpec (Some "/usr/lib/python3.11/site-packages/requests/__init__.py")
  else FindNone.

End Host.

(** A package manager to run the query on: it lists two packages, one of
    them twice under names that differ in case. *)
Module Pip.

Definition run (cmd : list string) : result completed_process :=
  Return (CompletedProcess 0 "[...]" "").

Definition json_loads (text : string) : result pyval :=
  Return (PyList
    [ PyDict [("name", PyStr "NumPy"); ("version", PyStr "1.26.0")];
      PyDict [("name", PyStr "requests"); ("version", PyStr "2.31.0")];
      PyDict [("name", PyStr "numpy"); ("version", PyStr "2.0.0")] ]).

(** A manager that cannot be started, and one that exits with status 1. *)
Definition run_unavailable (cmd : list string) : result completed_process :=
  Raise (OSError "No such file or directory").

Definition run_failing (cmd : list string) : result completed_process :=
  Return (CompletedProcess 1 "" "No module named pip").

Definition global : manager := Manager None None "/usr/bin/python3".

(** [str.lower] on the names of this listing, which are ASCII. *)
Definition str_lower : string → string := Str.lower.

End Pip.

(** A project to run the extractor on: one file that parses, one whose
    text is not a program, and no other file. *)
Module Project.

Definition read_file (file_path : string) : result string :=
  if bool_decide (file_path = "main.py")
  then Return "import a.b.c; from x.y import z; from . import w"
  else if bool_decide (file_path = "broken.py")
  then Return "def ("
  else Raise (OSError "No such file or directory").

Definition ast_parse (content : string) : result node :=
  if bool_decide (content = "import a.b.c; from x.y import z; from . import w")
  then Return (Node [ Import [Alias "a.b.c" None];
                      ImportFrom (Some "x.y") [Alias "z" None] 0;
                      ImportFrom None [Alias "w" None] 1 ])
  else Raise (SyntaxError "invalid syntax").

End Project.

(** ** Vocabulary of the properties *)

(** [x] is the top-level module name of the dotted name [full]: its first
    dot-separated component. *)
Definition top_level (x full : string) : Prop :=
  Str.dotless x = true ∧ (full = x ∨ ∃ rest, full = x +:+ "." +:+ rest).

(** What the loop of [analyze_imports] adds at node [n]. *)
Definition adds (n : node) (x : string) : Prop :=
  match n with
  | Import names => ∃ a, a ∈ names ∧ x = Str.split_dot_head (name a)
  | ImportFrom (Some m) _ _ => m ≠ EmptyString ∧ x = Str.split_dot_head m
  | _ => False
  end.

(** [x] is the top-level module name of a name that the import statement
    [n] imports, or of the module that the from-import [n] imports from;
    a from-import without a module imports from none. *)
Definition imported_by (n : node) (x : string) : Prop :=
  match n with
  | Import names => ∃ a, a ∈ names ∧ top_level x (name a)
  | ImportFrom (Some m) _ _ => m ≠ EmptyString ∧ top_level x m
  | _ => False
  end.

(** The names that the statements of one tree give. *)
Definition tree_imports (tree : node) : gset string :=
  foldl node_imports ∅ (walk tree).

(** The tree of a file that can be read and parsed. *)
Definition parsed_tree (read_file : string → result string)
    (ast_parse : string → result node) (file_path : string) : option node :=
  match parse_file read_file ast_parse file_path with
  | Return tree => Some tree
  | Raise _ => None
  end.

(** The trees of the files of a list that can be read and parsed. *)
Definition parsed (read_file : string → result string)
    (ast_parse : string → result node) (code_files : list string) : list node :=
  omap (parsed_tree read_file ast_parse) code_files.

Definition string_eq_dec (a b : string) : {a = b} + {a ≠ b} := decide (a = b).

(** The environment that [detect_venv] activates for candidate [c]. *)
Definition activated (os_name : string) (path_join : string → string → string)
    (self : manager) (root c : string) : manager :=
  Manager (project_path self) (Some (path_join root c))
    (python_exe_in os_name path_join (path_join root c)).

(** The global interpreter. *)
Definition global (sys_executable : string) (self : manager) : manager :=
  Manager (project_path self) None sys_executable.

(** Candidate [c] qualifies under [root]. *)
Definition qualifies (os_name : string) (path_join : string → string → string)
    (FS : Type) (isdir exists_ : FS → string → bool)
    (fs : FS) (root c : string) : bool :=
  is_venv os_name path_join FS isdir exists_ fs (path_join root c).

(** Import [imp] adds [x] to the missing set: it is not standard library,
    its package name is not installed, and [x] is its install name. *)
Definition contributes (builtin_module_names : list string)
    (find_spec : string → find_spec_result) {V} (installed : gmap string V)
    (imp x : string) : Prop :=
  is_standard_library builtin_module_names find_spec imp = false ∧
  installed !! package_name imp = None ∧
  x = install_name imp.

(** The manager's interpreter is the one of its environment: the
    interpreter inside [venv_path] when there is one, the host interpreter
    otherwise. *)
Definition env_consistent (sys_executable os_name : string)
    (path_join : string → string → string) (self : manager) : Prop :=
match venv_path self with
| Some v => python_executable self = python_exe_in os_name path_join v
| None => python_executable self = sys_executable
end.

(** ** Code analysis *)

Module CodeAnalyzer.

(** The nodes of a syntax tree, as far as [analyze_code] tells them apart:
    a function definition with its name, line and number of positional
    parameters, a class definition, the two import statements, an
    assignment with its targets ([Some id] for a target that is a name),
    and any other node. [children] are the child nodes in the order of
    [ast.iter_child_nodes]. *)
Inductive syntax : Type :=
| FunctionDef (name : string) (lineno : Z) (args : nat) (children : list syntax)
| ClassDef (name : string) (lineno : Z) (children : list syntax)
| Import (names : list alias)
| ImportFrom (module : option string) (names : list alias) (level : nat)
| Assign (targets : list (option string)) (children : list syntax)
| Other (children : list syntax).

(** Two lists of levels, level by level. *)
Fixpoint zip_app {A} (l1 l2 : list (list A)) : list (list A) :=
match l1, l2 with
| [], l => l
| l, [] => l
| x :: l1', y :: l2' => (x ++ y) :: zip_app l1' l2'
end.

(** The nodes of a tree by depth, each level from left to right. *)
Fixpoint levels (n : syntax) : list (list syntax) :=
[n] :: match n with
       | FunctionDef _ _ _ children
       | ClassDef _ _ children
       | Assign _ children
       | Other children => foldr (λ c acc, zip_app (levels c) acc) [] children
       | Import _ | ImportFrom _ _ _ => []
       end.

(** [ast.walk(tree)] : a queue of nodes, each taken from the front while
    its children are put at the back, which is the order by levels. *)
Definition walk (tree : syntax) : list syntax := concat (levels tree).

Record function_info : Type := FunctionInfo {
  fn_name : string;
  fn_line : Z;
  fn_args : nat
}.

Record class_info : Type := ClassInfo {
  cls_name : string;
  cls_line : Z
}.

(** The dictionary that [analyze_code] returns; [syntax_error] is [None]
    when the key is absent. *)
Record insights : Type := Insights {
  functions : list function_info;
  classes : list class_info;
  imports : list string;
  variables : list string;
  complexity_score : nat;
  suggestions : list string;
  syntax_error : option string
}.

(** The branches of the loop over [ast.walk(tree)]. *)
Definition visit (ins : insights) (n : syntax) : insights :=
match n with
| FunctionDef name lineno args _ =>
    Insights (functions ins ++ [FunctionInfo name lineno args]) (classes ins)
      (imports ins) (variables ins) (complexity_score ins) (suggestions ins)
      (syntax_error ins)
| ClassDef name lineno _ =>
    Insights (functions ins) (classes ins ++ [ClassInfo name lineno])
      (imports ins) (variables ins) (complexity_score ins) (suggestions ins)
      (syntax_error ins)
| Import names =>
    Insights (functions ins) (classes ins)
      (imports ins ++ (name <$> names)) (variables ins)
      (complexity_score ins) (suggestions ins) (syntax_error ins)
| ImportFrom module names _ =>
    if truthy module
    then Insights (functions ins) (classes ins)
           (imports ins ++
              ((λ a, default EmptyString module +:+ "." +:+ name a) <$> names))
           (variables ins) (complexity_score ins) (suggestions ins)
           (syntax_error ins)
    else ins
| Assign targets _ =>
    Insights (functions ins) (classes ins) (imports ins)
      (variables ins ++ omap id targets)
      (complexity_score ins) (suggestions ins) (syntax_error ins)
| Other _ => ins
end.

Definition is_nil {A} (l : list A) : bool :=
match l with [] => true | _ => false end.

Section Analyzer.

(** [ast.parse], and [len(code.strip())], the number of characters of the
    text without its outer white space. *)
Variable ast_parse : string → result syntax.
Variable len_strip : string → nat.

Definition analyze_code (code : string) : result insights :=
let insights := Insights [] [] [] [] 0 [] None in
match ast_parse code with
| Return tree =>
    let insights := foldl visit insights (walk tree) in
    let insights :=
      Insights (functions insights) (classes insights) (imports insights)
        (variables insights)
        (length (functions insights) * 2 + length (classes insights) * 3)
        (suggestions insights) (syntax_error insights) in
    let insights :=
      if is_nil (functions insights) && is_nil (classes insights)
         && (50 <? len_strip code)
      then Insights (functions insights) (classes insights) (imports insights)
             (variables insights) (complexity_score insights)
             (suggestions insights ++ ["Consider organizing your code into functions"])
             (syntax_error insights)
      else insights in
    let insights :=
      if 5 <? length (imports insights)
      then Insights (functions insights) (classes insights) (imports insights)
             (variables insights) (complexity_score insights)
             (suggestions insights ++ ["Consider organizing imports at the top"])
             (syntax_error insights)
      else insights in
    Return insights
| Raise (SyntaxError msg) =>
    Return (Insights [] [] [] [] 0 [] (Some msg))
| Raise e => Raise e
end.

End Analyzer.

End CodeAnalyzer.

(** ** Project files *)

(** [s.endswith(suffix)] *)
Definition endswith (s suffix : string) : bool :=
String.prefix (String.rev suffix) (String.rev s).

(** What [os.walk] finds in a directory: the subdirectories by name, in the
    order of the listing, and the names of the other entries. A directory
    that [os.walk] does not enter (a link, a directory that cannot be
    listed) is one with nothing in it. *)
Inductive directory : Type :=
| Dir (dirs : list (string * directory)) (files : list string).

(** The attributes of the editor that [get_project_python_files] reads. *)
Record editor : Type := Editor {
  editor_project_path : option string;
  dependency_manager : manager;
  current_file : option string
}.

Section ProjectFiles.

(** [os.path.join] and [os.path.basename]. *)
Variable path_join : string → string → string.
Variable basename : string → string.

(** The loop over [os.walk(top, topdown=True)] with the pruning of [dirs]:
    the Python files of [top], then those of each subdirectory that is not
    excluded, in turn. *)
Fixpoint walk_python_files (exclude_dirs : gset string) (top : string)
    (d : directory) : list string :=
match d with
| Dir dirs files =>
    (path_join top <$> filter (λ file, endswith file ".py" = true) files)
    ++ (fix enter (dirs : list (string * directory)) : list string :=
          match dirs with
          | [] => []
          | (name, sub) :: rest =>
              (if bool_decide (name ∈ exclude_dirs) then []
               else walk_python_files exclude_dirs (path_join top name) sub)
              ++ enter rest
          end) dirs
end.

(** The directories left out of the scan. *)
Definition exclude_dirs (self : editor) : gset string :=
let exclude_dirs : gset string :=
  {[ ".git"; "__pycache__"; "build"; "dist"; ".vscode";
     "venv"; "env"; ".venv"; ".env" ]} in
if truthy (venv_path (dependency_manager self))
then exclude_dirs
     ∪ {[ basename (default EmptyString (venv_path (dependency_manager self))) ]}
else exclude_dirs.

(** [get_project_python_files], [tree] being what [os.walk] finds under
    the project path. *)
Definition get_project_python_files (tree : directory) (self : editor)
    : list string :=
if truthy (editor_project_path self)
then walk_python_files (exclude_dirs self)
       (default EmptyString (editor_project_path self)) tree
else
  if truthy (current_file self)
     && endswith (default EmptyString (current_file self)) ".py"
  then [default EmptyString (current_file self)]
  else [].

End ProjectFiles.

(** ** The dependency panel *)

(** What [refresh_dependencies] shows beside a name: [Missing] with an
    install button, or the version, [ShownVersion None] being the text
    ["vInstalled"] of a name that has no entry among the installed
    packages. *)
Inductive status : Type :=
| Missing
| ShownVersion (version : option pyval).

Section Panel.

Variable builtin_module_names : list string.
Variable find_spec : string → find_spec_result.

(** The loop over [all_deps]: one row for each name that is not standard
    library. *)
Definition dependency_rows (imports : gset string)
    (missing_packages : list string) (installed_packages : gmap string pyval)
    : list (string * status) :=
let all_deps :=
  merge_sort String.le (elements (imports ∪ dom installed_packages)) in
all_deps ≫= λ dep,
  if is_standard_library builtin_module_names find_spec dep then []
  else if bool_decide (dep ∈ missing_packages) then [(dep, Missing)]
  else [(dep, ShownVersion (installed_packages !! Str.lower dep))].

(** The text of the button under the rows: [Some n] for
    ["Install n Missing"], [None] for ["All Dependencies Met"]. *)
Definition install_all_button (missing_packages : list string) : option nat :=
match missing_packages with
| [] => None
| _ :: _ => Some (length missing_packages)
end.

End Panel.

(** ** Vocabulary of the further properties *)

(** The child nodes of a node. *)
Definition iter_child_nodes (n : CodeAnalyzer.syntax) : list CodeAnalyzer.syntax :=
match n with
| CodeAnalyzer.FunctionDef _ _ _ children
| CodeAnalyzer.ClassDef _ _ children
| CodeAnalyzer.Assign _ children
| CodeAnalyzer.Other children => children
| CodeAnalyzer.Import _ | CodeAnalyzer.ImportFrom _ _ _ => []
end.

(** A node and its descendants, parents first. *)
Fixpoint descendants (n : CodeAnalyzer.syntax) : list CodeAnalyzer.syntax :=
n :: match n with
     | CodeAnalyzer.FunctionDef _ _ _ children
     | CodeAnalyzer.ClassDef _ _ children
     | CodeAnalyzer.Assign _ children
     | CodeAnalyzer.Other children => concat (descendants <$> children)
     | CodeAnalyzer.Import _ | CodeAnalyzer.ImportFrom _ _ _ => []
     end.

Definition is_function (n : CodeAnalyzer.syntax) : bool :=
match n with CodeAnalyzer.FunctionDef _ _ _ _ => true | _ => false end.

Definition is_class (n : CodeAnalyzer.syntax) : bool :=
match n with CodeAnalyzer.ClassDef _ _ _ => true | _ => false end.

(** The number of nodes of a tree that pass a test. *)
Definition count_nodes (test : CodeAnalyzer.syntax → bool)
    (tree : CodeAnalyzer.syntax) : nat :=
length (filter (λ n, test n = true) (descendants tree)).

(** The tree that [analyze_imports] sees in a tree of [analyze_code]:
    import statements are kept, every other node keeps its children
    only. *)
Fixpoint erase (n : CodeAnalyzer.syntax) : node :=
match n with
| CodeAnalyzer.FunctionDef _ _ _ children
| CodeAnalyzer.ClassDef _ _ children
| CodeAnalyzer.Assign _ children
| CodeAnalyzer.Other children => Node (erase <$> children)
| CodeAnalyzer.Import names => Import names
| CodeAnalyzer.ImportFrom module names level => ImportFrom module names level
end.

(** What a node adds to each list of the insights. *)
Definition function_of (n : CodeAnalyzer.syntax) : option CodeAnalyzer.function_info :=
match n with
| CodeAnalyzer.FunctionDef name lineno args _ =>
    Some (CodeAnalyzer.FunctionInfo name lineno args)
| _ => None
end.

Definition class_of (n : CodeAnalyzer.syntax) : option CodeAnalyzer.class_info :=
match n with
| CodeAnalyzer.ClassDef name lineno _ => Some (CodeAnalyzer.ClassInfo name lineno)
| _ => None
end.

Definition import_entries (n : CodeAnalyzer.syntax) : list string :=
match n with
| CodeAnalyzer.Import names => name <$> names
| CodeAnalyzer.ImportFrom (Some m) names _ =>
    if bool_decide (m = EmptyString) then []
    else (λ a, m +:+ "." +:+ name a) <$> names
| _ => []
end.

Definition assigned_names (n : CodeAnalyzer.syntax) : list string :=
match n with
| CodeAnalyzer.Assign targets _ => omap id targets
| _ => []
end.

(** The key and the value that the comprehension of
    [get_installed_packages] takes from one entry of the list. *)
Definition package_entry (str_lower : string → string) (pkg : pyval)
    : result (string * pyval) :=
name ← py_getitem pkg "name";
key ← py_lower str_lower name;
version ← py_getitem pkg "version";
Return (key, version).

(** Every from-import of the tree names at least one thing, as every
    from-import that parses does. *)
Definition from_imports_named (tree : CodeAnalyzer.syntax) : Prop :=
∀ module names level,
  CodeAnalyzer.ImportFrom module names level ∈ descendants tree → names ≠ [].

(** [file] is an entry of the directory reached from [d] through the
    subdirectories [comps]. *)
Inductive file_at : directory → list string → string → Prop :=
| file_here dirs files file :
    file ∈ files → file_at (Dir dirs files) [] file
| file_below dirs files name sub comps file :
    (name, sub) ∈ dirs → file_at sub comps file →
    file_at (Dir dirs files) (name :: comps) file.

(** A tree to run the analysis on: a class with a method that assigns, a
    function, two imports. *)
Module Sample.

Definition tree : CodeAnalyzer.syntax :=
CodeAnalyzer.Other
  [ CodeAnalyzer.Import [Alias "os.path" None];
    CodeAnalyzer.ImportFrom (Some "x.y") [Alias "z" None; Alias "w" None] 0;
    CodeAnalyzer.ClassDef "C" 4
      [ CodeAnalyzer.FunctionDef "m" 5 1
          [ CodeAnalyzer.Assign [Some "x"; None] [] ] ];
    CodeAnalyzer.FunctionDef "f" 8 2 [] ].

Definition ast_parse (code : string) : result CodeAnalyzer.syntax :=
if bool_decide (code = "def (") then Raise (SyntaxError "invalid syntax")
else if bool_decide (code = String "000"%char EmptyString)
then Raise (ValueError "source code string cannot contain null bytes")
else Return tree.

(** A project directory: a source file and notes at the top, a package
    with a module, an environment created under the name [myenv], a
    cache. *)
Definition project : directory :=
Dir [ ("pkg", Dir [] ["__init__.py"; "core.py"; "data.json"]);
      ("myenv", Dir [("bin", Dir [] ["activate_this.py"])] ["setup.py"]);
      ("__pycache__", Dir [] ["main.cpython-311.pyc"]) ]
    ["main.py"; "notes.txt"].

(** [posixpath.basename] *)
Fixpoint basename_from (last : string) (s : string) : string :=
match s with
| EmptyString => String.rev last
| String c s' =>
    if bool_decide (c = "/"%char) then basename_from EmptyString s'
    else basename_from (String c last) s'
end.
Definition basename : string → string := basename_from EmptyString.

(** [len(code.strip())] on the texts of this sample, which are ASCII and
    have no outer white space. *)
Definition len_strip : string → nat := String.length.

Definition ide : editor :=
Editor (Some "/p") (Manager (Some "/p") (Some "/p/myenv") "/p/myenv/bin/python") None.

End Sample.

(** * Properties *)

(** ** Strings *)

Lemma lower_char_idemp c : Str.lower_char (Str.lower_char c) = Str.lower_char c.
Proof. by destruct c as [[] [] [] [] [] [] [] []]. Qed.

Lemma lower_idemp s : Str.lower (Str.lower s) = Str.lower s.
Proof. induction s as [|c s IH]; simpl; [done|]. by rewrite lower_char_idemp, IH. Qed.

Lemma split_dot_head_dotless s : Str.dotless (Str.split_dot_head s) = true.
Proof.
  induction s as [|c s IH]; simpl; [done|].
  destruct (Str.is_dot c) eqn:Hc; simpl; [done|]. by rewrite Hc.
Qed.

Lemma is_dot_spec c : Str.is_dot c = true → c = "."%char.
Proof. by destruct c as [[] [] [] [] [] [] [] []]. Qed.

(** [split_dot_head s] is the first dot-separated component of [s]. *)
Lemma split_dot_head_spec s :
  s = Str.split_dot_head s ∨ ∃ rest, s = Str.split_dot_head s +:+ "." +:+ rest.
Proof.
  induction s as [|c s IH]; simpl; [by left|].
  destruct (Str.is_dot c) eqn:Hc.
  - right. exists s. by rewrite (is_dot_spec c Hc).
  - destruct IH as [IH|[rest IH]].
    + left. by rewrite <-IH.
    + right. exists rest. unfold String.app in *. simpl. by rewrite <-IH.
Qed.

Lemma split_dot_head_app a rest :
  Str.dotless a = true → Str.split_dot_head (a +:+ "." +:+ rest) = a.
Proof.
  induction a as [|c a IH]; simpl; [done|].
  intros [Hc Ha]%andb_prop. apply negb_true_iff in Hc.
  unfold String.app in *. simpl. rewrite Hc. by rewrite IH.
Qed.

Lemma split_dot_head_id a : Str.dotless a = true → Str.split_dot_head a = a.
Proof.
  induction a as [|c a IH]; simpl; [done|].
  intros [Hc Ha]%andb_prop. apply negb_true_iff in Hc. rewrite Hc. by rewrite IH.
Qed.

Lemma le_ne_lt a b : String.le a b → a ≠ b → Str.lt a b.
Proof.
  unfold String.le, Str.lt, String.leb, String.ltb. intros Hle Hne.
  destruct (String.compare a b) eqn:Hc; [|done|done].
  by apply String.compare_eq_iff in Hc.
Qed.

Lemma sorted_nodup_strict (l : list string) :
  StronglySorted String.le l → NoDup l → StronglySorted Str.lt l.
Proof.
  induction 1 as [|x l Hs IH Hx]; intros Hnd; [constructor|].
  apply NoDup_cons in Hnd as [Hx' Hnd]. constructor; [by apply IH|].
  apply Forall_forall. intros y Hy. apply le_ne_lt.
  - by eapply Forall_forall in Hx.
  - by intros ->.
Qed.

(** ** The alias table *)

Lemma alias_entries k v :
  import_to_package_map !! k = Some v →
  (k, v) ∈ [ ("pil", "pillow"); ("yaml", "pyyaml"); ("cv2", "opencv-python");
             ("skimage", "scikit-image"); ("sklearn", "scikit-learn");
             ("bs4", "beautifulsoup4") ].
Proof. unfold import_to_package_map. apply elem_of_list_to_map_2. Qed.

(** A value of the table is in lower case and is not a key, and neither is
    its lower-case form. *)
Lemma alias_value k v :
  import_to_package_map !! k = Some v →
  Str.lower v = v ∧ import_to_package_map !! v = None.
Proof.
  intros H%alias_entries.
  repeat (apply elem_of_cons in H as [H|H]; [by simplify_eq|]).
  by apply elem_of_nil in H.
Qed.

Lemma install_name_lower imp : Str.lower (install_name imp) = package_name imp.
Proof.
  unfold install_name, package_name, dict_get.
  destruct (import_to_package_map !! Str.lower imp) as [v|] eqn:Hv; simpl; [|done].
  by apply alias_value in Hv as [? _].
Qed.

Lemma install_name_cases imp :
  install_name imp = imp ∨
  import_to_package_map !! Str.lower imp = Some (install_name imp).
Proof.
  unfold install_name, dict_get.
  destruct (import_to_package_map !! Str.lower imp); simpl; auto.
Qed.

(** C9. Alias resolution is idempotent: resolving an install name again
    gives it back, in the form handed to the installer ([install_name]) and
    in the form looked up among the installed packages ([package_name]);
    and no value of the alias table is a key of it. *)
Theorem alias_resolution_idempotent :
  (∀ imp, install_name (install_name imp) = install_name imp) ∧
  (∀ imp, package_name (package_name imp) = package_name imp) ∧
  map_Forall (λ _ v, import_to_package_map !! v = None) import_to_package_map.
Proof.
  split_and!.
  - intros imp. destruct (install_name_cases imp) as [He|Hv]; [by rewrite !He|].
    apply alias_value in Hv as [Hl Hk].
    unfold install_name at 1, dict_get. by rewrite Hl, Hk.
  - intros imp. unfold package_name, dict_get.
    destruct (import_to_package_map !! Str.lower imp) as [v|] eqn:Hv; simpl.
    + apply alias_value in Hv as [Hl Hk]. by rewrite Hl, Hk.
    + by rewrite lower_idemp, Hv.
  - intros k v Hv. by apply alias_value in Hv as [_ ?].
Qed.

(** ** Missing packages *)

Section MissingProps.

Variable builtin_module_names : list string.
Variable find_spec : string → find_spec_result.
Context {V : Type} (installed : gmap string V).

Notation is_stdlib := (is_standard_library builtin_module_names find_spec).
Notation step := (missing_step builtin_module_names find_spec installed).

Lemma elem_of_missing_step missing imp x :
  x ∈ step missing imp ↔ x ∈ missing ∨ contributes builtin_module_names find_spec installed imp x.
Proof.
  unfold missing_step, contributes.
  destruct (is_stdlib imp); [naive_solver|].
  case_bool_decide; set_solver.
Qed.

Lemma elem_of_missing_fold l missing x :
  x ∈ foldl step missing l ↔
  x ∈ missing ∨ ∃ imp, imp ∈ l ∧ contributes builtin_module_names find_spec installed imp x.
Proof.
  revert missing. induction l as [|imp l IH]; intros missing; simpl.
  - set_solver.
  - rewrite IH, elem_of_missing_step. set_solver.
Qed.

Lemma elem_of_missing_packages imports x :
  x ∈ missing_packages builtin_module_names find_spec installed imports ↔
  ∃ imp, imp ∈ imports ∧ contributes builtin_module_names find_spec installed imp x.
Proof.
  unfold missing_packages. rewrite merge_sort_Permutation, elem_of_elements.
  rewrite elem_of_missing_fold. setoid_rewrite elem_of_elements. set_solver.
Qed.

Lemma missing_packages_NoDup imports :
  NoDup (missing_packages builtin_module_names find_spec installed imports).
Proof.
  unfold missing_packages. rewrite merge_sort_Permutation. apply NoDup_elements.
Qed.

Lemma missing_packages_sorted imports :
  StronglySorted Str.lt
    (missing_packages builtin_module_names find_spec installed imports).
Proof.
  apply sorted_nodup_strict; [|apply missing_packages_NoDup].
  unfold missing_packages. apply (StronglySorted_merge_sort _).
Qed.

End MissingProps.

Lemma get_installed_packages_returns run json_loads str_lower self :
  ∃ installed, get_installed_packages run json_loads str_lower self = Return installed.
Proof. unfold get_installed_packages. destruct (list_packages _ _ _); eauto. Qed.

(** C1. The result of [get_missing_packages] is sorted by the strict order
    of strings, so it repeats nothing, and it holds exactly once the
    alias-resolved form [install_name imp] of every import [imp] that is
    not standard library and whose alias-resolved name in lower case is
    not a key of the installed mapping. This holds of the loop for every
    mapping [installed], and [get_missing_packages] returns what the loop
    gives for the mapping that [get_installed_packages] returns. *)
Theorem get_missing_packages_includes_absent
    (builtin_module_names : list string) (find_spec : string → find_spec_result)
    (imports : gset string) :
  (∀ installed : gmap string pyval,
     let missing := missing_packages builtin_module_names find_spec installed imports in
     StronglySorted Str.lt missing ∧ NoDup missing ∧
     ∀ imp, imp ∈ imports →
       is_standard_library builtin_module_names find_spec imp = false →
       installed !! Str.lower (install_name imp) = None →
       count_occ string_eq_dec missing (install_name imp) = 1) ∧
  (∀ run json_loads str_lower self, ∃ installed,
     get_installed_packages run json_loads str_lower self = Return installed ∧
     get_missing_packages builtin_module_names find_spec run json_loads str_lower self imports
       = Return (missing_packages builtin_module_names find_spec installed imports)).
Proof.
  split.
  - intros installed missing. split_and!.
    + apply missing_packages_sorted.
    + apply missing_packages_NoDup.
    + intros imp Himp Hstd Habs. rewrite install_name_lower in Habs.
      apply (proj1 (NoDup_count_occ' string_eq_dec missing));
        [apply NoDup_ListNoDup, missing_packages_NoDup|].
      apply list_elem_of_In, elem_of_missing_packages.
      exists imp. by repeat split.
  - intros run json_loads str_lower self.
    destruct (get_installed_packages_returns run json_loads str_lower self) as [installed H].
    exists installed. split; [done|]. unfold get_missing_packages. by rewrite H.
Qed.

(** C3, as the code has it. The result of the loop of
    [get_missing_packages] holds exactly the alias-resolved forms of the
    imports that are not classified standard library and whose package name
    is not installed: an import classified standard library is skipped
    before alias resolution and adds nothing. An element that the alias
    table did not produce is an import itself and is not classified
    standard library; the names that the table produces are not classified
    again. *)
Theorem missing_packages_from_non_stdlib_imports
    (builtin_module_names : list string) (find_spec : string → find_spec_result)
    (installed : gmap string pyval) (imports : gset string) (x : string) :
  (x ∈ missing_packages builtin_module_names find_spec installed imports ↔
   ∃ imp, imp ∈ imports ∧
     is_standard_library builtin_module_names find_spec imp = false ∧
     installed !! package_name imp = None ∧ x = install_name imp) ∧
  (x ∈ missing_packages builtin_module_names find_spec installed imports →
   map_Forall (λ _ v, v ≠ x) import_to_package_map →
   x ∈ imports ∧ is_standard_library builtin_module_names find_spec x = false).
Proof.
  split; [apply elem_of_missing_packages|].
  intros (imp & Himp & Hstd & _ & ->)%elem_of_missing_packages Hx.
  destruct (install_name_cases imp) as [He|Hv].
  - by rewrite He.
  - by apply Hx in Hv.
Qed.

Lemma get_missing_packages_includes_absent_witness :
  count_occ string_eq_dec
    (missing_packages Host.builtin_module_names Host.find_spec
       (∅ : gmap string pyval) {[ "cv2"; "os"; "numpy" ]})
    (install_name "cv2") = 1.
Proof.
  apply (proj1 (get_missing_packages_includes_absent
                  Host.builtin_module_names Host.find_spec
                  {[ "cv2"; "os"; "numpy" ]}) ∅).
  - set_solver.
  - vm_compute. reflexivity.
  - vm_compute. reflexivity.
Defined.

(** The install name that the alias table gives for [cv2] is in the result
    and fails the identifier test, so the classifier calls it standard
    library. *)
Lemma missing_install_name_classified_stdlib :
  missing_packages Host.builtin_module_names Host.find_spec
    (∅ : gmap string pyval) {[ "cv2" ]} = ["opencv-python"] ∧
  is_standard_library Host.builtin_module_names Host.find_spec "cv2" = false ∧
  is_standard_library Host.builtin_module_names Host.find_spec "opencv-python" = true.
Proof. vm_compute. auto. Qed.

(** The scenario of the specification: [os] is skipped, [numpy] is missing. *)
Lemma missing_packages_from_non_stdlib_imports_witness :
  "numpy" ∈ ({[ "numpy"; "os" ]} : gset string) ∧
  is_standard_library Host.builtin_module_names Host.find_spec "numpy" = false ∧
  is_standard_library Host.builtin_module_names Host.find_spec "os" = true ∧
  missing_packages Host.builtin_module_names Host.find_spec
    (∅ : gmap string pyval) {[ "numpy"; "os" ]} = ["numpy"].
Proof.
  assert (Hin : "numpy" ∈ missing_packages Host.builtin_module_names Host.find_spec
                  (∅ : gmap string pyval) {[ "numpy"; "os" ]}).
  { vm_compute. left. }
  destruct (proj2 (missing_packages_from_non_stdlib_imports
                     Host.builtin_module_names Host.find_spec
                     ∅ {[ "numpy"; "os" ]} "numpy") Hin) as [H1 H2].
  { apply map_Forall_lookup. intros k v Hv%alias_entries.
    repeat (apply elem_of_cons in Hv as [Hv|Hv]; [by simplify_eq|]).
    by apply elem_of_nil in Hv. }
  split_and!; [exact H1|exact H2|vm_compute; reflexivity..].
Defined.

(** ** Import extraction *)

Lemma split_dot_head_top_level s : top_level (Str.split_dot_head s) s.
Proof.
  split; [apply split_dot_head_dotless|].
  destruct (split_dot_head_spec s) as [H|[rest H]]; [by left|right; eauto].
Qed.

Lemma elem_of_names_fold (names : list alias) (imports : gset string) x :
  x ∈ foldl (λ acc a, acc ∪ {[ Str.split_dot_head (name a) ]}) imports names ↔
  x ∈ imports ∨ ∃ a, a ∈ names ∧ x = Str.split_dot_head (name a).
Proof.
  revert imports. induction names as [|a names IH]; intros imports; simpl.
  - set_solver.
  - rewrite IH. set_solver.
Qed.

Lemma truthy_Some m : truthy (Some m) = true ↔ m ≠ EmptyString.
Proof. simpl. rewrite negb_true_iff, bool_decide_eq_false. done. Qed.

Lemma elem_of_node_imports imports n x :
  x ∈ node_imports imports n ↔ x ∈ imports ∨ adds n x.
Proof.
  destruct n as [names|[m|] names level|children]; simpl.
  - apply elem_of_names_fold.
  - destruct (bool_decide (m = EmptyString)) eqn:Hm; simpl.
    + apply bool_decide_eq_true in Hm. naive_solver.
    + apply bool_decide_eq_false in Hm. set_solver.
  - naive_solver.
  - naive_solver.
Qed.

Lemma elem_of_tree_fold (nodes : list node) imports x :
  x ∈ foldl node_imports imports nodes ↔
  x ∈ imports ∨ ∃ n, n ∈ nodes ∧ adds n x.
Proof.
  revert imports. induction nodes as [|n nodes IH]; intros imports; simpl.
  - set_solver.
  - rewrite IH, elem_of_node_imports. set_solver.
Qed.

Lemma top_level_unique x full : top_level x full → x = Str.split_dot_head full.
Proof.
  intros [Hx [->|[rest ->]]].
  - by rewrite split_dot_head_id.
  - by rewrite split_dot_head_app.
Qed.

Lemma adds_top_level n x : adds n x ↔ imported_by n x.
Proof.
  destruct n as [names|[m|] names level|children]; simpl; [| |done..].
  - split.
    + intros (a & Ha & ->). exists a. split; [done|apply split_dot_head_top_level].
    + intros (a & Ha & Hx%top_level_unique). by exists a.
  - split.
    + intros [Hm ->]. split; [done|apply split_dot_head_top_level].
    + intros [Hm Hx%top_level_unique]. done.
Qed.

Lemma dotless_app_dot a rest : Str.dotless (a +:+ "." +:+ rest) = false.
Proof.
  induction a as [|c a IH]; [done|]. unfold String.app in *. simpl.
  rewrite IH. apply andb_false_r.
Qed.

Section ExtractorProps.

Variable read_file : string → result string.
Variable ast_parse : string → result node.

Lemma elem_of_file_step imports file x :
  x ∈ file_step read_file ast_parse imports file ↔
  x ∈ imports ∨
  ∃ tree, parse_file read_file ast_parse file = Return tree ∧ x ∈ tree_imports tree.
Proof.
  unfold file_step, tree_imports.
  destruct (parse_file read_file ast_parse file) as [tree|e].
  - rewrite elem_of_tree_fold.
    setoid_rewrite elem_of_tree_fold. set_solver.
  - naive_solver.
Qed.

Lemma elem_of_files_fold files imports x :
  x ∈ foldl (file_step read_file ast_parse) imports files ↔
  x ∈ imports ∨
  ∃ file tree, file ∈ files ∧
    parse_file read_file ast_parse file = Return tree ∧ x ∈ tree_imports tree.
Proof.
  revert imports. induction files as [|file files IH]; intros imports; simpl.
  - set_solver.
  - rewrite IH, elem_of_file_step. set_solver.
Qed.

Lemma elem_of_analyze_imports files x :
  x ∈ analyze_imports read_file ast_parse files ↔
  ∃ file tree, file ∈ files ∧
    parse_file read_file ast_parse file = Return tree ∧ x ∈ tree_imports tree.
Proof. unfold analyze_imports. rewrite elem_of_files_fold. set_solver. Qed.

Lemma elem_of_parsed files tree :
  tree ∈ parsed read_file ast_parse files ↔
  ∃ file, file ∈ files ∧ parse_file read_file ast_parse file = Return tree.
Proof.
  unfold parsed. rewrite list_elem_of_omap. unfold parsed_tree.
  split; intros (file & Hf & Ht); exists file; split; try done;
    destruct (parse_file read_file ast_parse file); naive_solver.
Qed.

Lemma analyze_imports_union files :
  analyze_imports read_file ast_parse files
  = ⋃ (tree_imports <$> parsed read_file ast_parse files).
Proof.
  apply set_eq. intros x.
  rewrite elem_of_analyze_imports, elem_of_union_list.
  setoid_rewrite list_elem_of_fmap. setoid_rewrite elem_of_parsed.
  naive_solver.
Qed.

Lemma parsed_skip before file after e :
  parse_file read_file ast_parse file = Raise e →
  parsed read_file ast_parse (before ++ file :: after)
  = parsed read_file ast_parse (before ++ after).
Proof.
  intros H. unfold parsed. rewrite !omap_app. simpl.
  unfold parsed_tree at 2. by rewrite H.
Qed.

End ExtractorProps.

Lemma app_dot_nonempty x rest : x +:+ "." +:+ rest ≠ EmptyString.
Proof. by destruct x. Qed.

(** C4. The set that [analyze_imports] returns holds exactly the top-level
    module names of the names imported by the [import] statements, and of
    the modules of the from-imports that have one, of the files of the
    list that parse; none of its names has a dot. For an [import a.rest]
    in such a file, [a] is in the set and [a.rest] is not; for a
    [from x.rest import ...], [x] is in the set and [x.rest] is not, and
    what its aliases name plays no part; a from-import without a module
    gives nothing. Statement by statement: [import a.rest] adds exactly
    [a], [from x.rest import ...] adds exactly [x], and a from-import
    without a module adds nothing. *)
Theorem analyze_imports_top_level_names
    (read_file : string → result string) (ast_parse : string → result node) :
  (∀ files x, x ∈ analyze_imports read_file ast_parse files ↔
     ∃ file tree n, file ∈ files ∧
       parse_file read_file ast_parse file = Return tree ∧
       n ∈ walk tree ∧ imported_by n x) ∧
  (∀ files x, x ∈ analyze_imports read_file ast_parse files →
     Str.dotless x = true) ∧
  (∀ files file tree names a rest asname,
     file ∈ files → parse_file read_file ast_parse file = Return tree →
     Import names ∈ walk tree → Alias (a +:+ "." +:+ rest) asname ∈ names →
     Str.dotless a = true →
     a ∈ analyze_imports read_file ast_parse files ∧
     a +:+ "." +:+ rest ∉ analyze_imports read_file ast_parse files) ∧
  (∀ files file tree x rest names level,
     file ∈ files → parse_file read_file ast_parse file = Return tree →
     ImportFrom (Some (x +:+ "." +:+ rest)) names level ∈ walk tree →
     Str.dotless x = true →
     x ∈ analyze_imports read_file ast_parse files ∧
     x +:+ "." +:+ rest ∉ analyze_imports read_file ast_parse files) ∧
  (∀ imports a rest asname, Str.dotless a = true →
     node_imports imports (Import [Alias (a +:+ "." +:+ rest) asname])
     = imports ∪ {[ a ]}) ∧
  (∀ imports x rest names level, Str.dotless x = true →
     node_imports imports (ImportFrom (Some (x +:+ "." +:+ rest)) names level)
     = imports ∪ {[ x ]}) ∧
  (∀ imports names level,
     node_imports imports (ImportFrom None names level) = imports).
Proof.
  assert (Hiff : ∀ files x, x ∈ analyze_imports read_file ast_parse files ↔
     ∃ file tree n, file ∈ files ∧
       parse_file read_file ast_parse file = Return tree ∧
       n ∈ walk tree ∧ imported_by n x).
  { intros files x. rewrite elem_of_analyze_imports. unfold tree_imports.
    setoid_rewrite elem_of_tree_fold. setoid_rewrite adds_top_level.
    split.
    - intros (file & tree & Hf & Ht & [Hx|(n & Hn & Hx)]); [set_solver|].
      by exists file, tree, n.
    - intros (file & tree & n & Hf & Ht & Hn & Hx).
      exists file, tree. split_and!; [done..|]. right. by exists n. }
  assert (Hdot : ∀ files x, x ∈ analyze_imports read_file ast_parse files →
     Str.dotless x = true).
  { intros files x (file & tree & n & _ & _ & _ & Hx)%Hiff.
    destruct n as [names|[m|] names level|children]; simpl in Hx; [| |done..].
    - by destruct Hx as (a & _ & [? _]).
    - by destruct Hx as (_ & [? _]). }
  split_and!.
  - exact Hiff.
  - exact Hdot.
  - intros files file tree names a rest asname Hf Ht Hn Ha Hd. split.
    + apply Hiff. exists file, tree, (Import names). split_and!; [done..|].
      simpl. exists (Alias (a +:+ "." +:+ rest) asname). split; [done|].
      split; [done|]. right. by exists rest.
    + intros Hin%Hdot. by rewrite dotless_app_dot in Hin.
  - intros files file tree x rest names level Hf Ht Hn Hd. split.
    + apply Hiff.
      exists file, tree, (ImportFrom (Some (x +:+ "." +:+ rest)) names level).
      split_and!; [done..|]. simpl. split; [apply app_dot_nonempty|].
      split; [done|]. right. by exists rest.
    + intros Hin%Hdot. by rewrite dotless_app_dot in Hin.
  - intros imports a rest asname Ha. simpl. by rewrite split_dot_head_app.
  - intros imports x rest names level Hx. unfold node_imports.
    rewrite (proj2 (truthy_Some _) (app_dot_nonempty x rest)). simpl.
    by rewrite split_dot_head_app.
  - done.
Qed.

Lemma analyze_imports_top_level_names_witness :
  ("a" ∈ analyze_imports Project.read_file Project.ast_parse ["broken.py"; "main.py"]) ∧
  ("a.b.c" ∉ analyze_imports Project.read_file Project.ast_parse ["broken.py"; "main.py"]) ∧
  ("x" ∈ analyze_imports Project.read_file Project.ast_parse ["broken.py"; "main.py"]) ∧
  ("x.y" ∉ analyze_imports Project.read_file Project.ast_parse ["broken.py"; "main.py"]).
Proof.
  pose proof (analyze_imports_top_level_names Project.read_file Project.ast_parse)
    as (_ & _ & Himport & Hfrom & _).
  destruct (Himport ["broken.py"; "main.py"] "main.py"
              (Node [ Import [Alias "a.b.c" None];
                      ImportFrom (Some "x.y") [Alias "z" None] 0;
                      ImportFrom None [Alias "w" None] 1 ])
              [Alias "a.b.c" None] "a" "b.c" None) as [Ha Habc].
  { right. left. }
  { reflexivity. }
  { simpl. right. left. }
  { left. }
  { reflexivity. }
  destruct (Hfrom ["broken.py"; "main.py"] "main.py"
              (Node [ Import [Alias "a.b.c" None];
                      ImportFrom (Some "x.y") [Alias "z" None] 0;
                      ImportFrom None [Alias "w" None] 1 ])
              "x" "y" [Alias "z" None] 0) as [Hx Hxy].
  { right. left. }
  { reflexivity. }
  { simpl. right. right. left. }
  { reflexivity. }
  by split_and!.
Defined.



(** ** Installed packages *)

Lemma packages_dict_lookup (str_lower : string → string) items : ∀ acc d k v,
  packages_dict str_lower acc items = Return d → d !! k = Some v →
  acc !! k = Some v ∨
  ∃ pkg n, pkg ∈ items ∧ py_getitem pkg "name" = Return (PyStr n) ∧
    k = str_lower n ∧ py_getitem pkg "version" = Return v.
Proof.
  induction items as [|pkg items IH]; intros acc d k v Hd Hk; simpl in Hd.
  - left. by simplify_eq.
  - destruct (py_getitem pkg "name") as [nm|] eqn:Hn; simpl in Hd; [|done].
    destruct nm as [| | |n| |]; simpl in Hd; try done.
    destruct (py_getitem pkg "version") as [ver|] eqn:Hv; simpl in Hd; [|done].
    destruct (IH _ _ _ _ Hd Hk) as [Hacc|(pkg' & n' & Hin & ?)].
    + apply lookup_insert_Some in Hacc as [[<- <-]|[_ Hacc]]; [|by left].
      right. exists pkg, n. split; [left|done].
    + right. exists pkg', n'. split; [by right|done].
Qed.

Lemma packages_dict_keeps (str_lower : string → string) items : ∀ acc d k,
  packages_dict str_lower acc items = Return d → is_Some (acc !! k) → is_Some (d !! k).
Proof.
  induction items as [|pkg items IH]; intros acc d k Hd Hk; simpl in Hd.
  - by simplify_eq.
  - destruct (py_getitem pkg "name") as [nm|]; simpl in Hd; [|done].
    destruct (py_lower str_lower nm) as [key|]; simpl in Hd; [|done].
    destruct (py_getitem pkg "version") as [ver|]; simpl in Hd; [|done].
    apply (IH _ _ _ Hd). rewrite lookup_insert_is_Some. destruct (decide (key = k)); auto.
Qed.

Lemma packages_dict_covers (str_lower : string → string) items : ∀ acc d pkg n,
  packages_dict str_lower acc items = Return d → pkg ∈ items →
  py_getitem pkg "name" = Return (PyStr n) → is_Some (d !! str_lower n).
Proof.
  induction items as [|pkg' items IH]; intros acc d pkg n Hd Hin Hn; simpl in Hd.
  - by apply elem_of_nil in Hin.
  - destruct (py_getitem pkg' "name") as [nm|] eqn:Hn'; simpl in Hd; [|done].
    destruct (py_lower str_lower nm) as [key|] eqn:Hkey; simpl in Hd; [|done].
    destruct (py_getitem pkg' "version") as [ver|]; simpl in Hd; [|done].
    apply elem_of_cons in Hin as [->|Hin]; [|by eapply IH].
    rewrite Hn in Hn'. simplify_eq. simpl in Hkey. simplify_eq.
    apply (packages_dict_keeps _ _ _ _ _ Hd). rewrite lookup_insert_eq. eauto.
Qed.

(** C5. [get_installed_packages] always returns a mapping and never
    raises. It returns the empty mapping whenever its query raises, which
    it does when the manager cannot be run, when it exits with a non-zero
    status, when its output is not JSON, and when the JSON is not a list of
    entries with a string [name] and a [version]. When the query succeeds
    on a list of entries, every key of the mapping is the name of an entry
    as [str.lower] gives it, whatever its alphabet, and maps to the version
    of that entry; the lower-cased name of every entry is a key; and
    lower-casing a key gives the key, lower-casing twice being the same as
    once. *)
Theorem get_installed_packages_soft_failure
    (run : list string → result completed_process)
    (json_loads : string → result pyval)
    (str_lower : string → string) (self : manager) :
  (∃ installed, get_installed_packages run json_loads str_lower self = Return installed) ∧
  (∀ e, list_packages run json_loads str_lower self = Raise e →
     get_installed_packages run json_loads str_lower self = Return ∅) ∧
  (∀ e, run (pip_list self) = Raise e →
     get_installed_packages run json_loads str_lower self = Return ∅) ∧
  (∀ p, run (pip_list self) = Return p → returncode p ≠ 0%Z →
     get_installed_packages run json_loads str_lower self = Return ∅) ∧
  (∀ p, run (pip_list self) = Return p → returncode p = 0%Z →
     (∀ e, json_loads (stdout p) = Raise e →
        get_installed_packages run json_loads str_lower self = Return ∅) ∧
     (∀ packages e, json_loads (stdout p) = Return packages →
        (items ← py_iter packages; packages_dict str_lower ∅ items) = Raise e →
        get_installed_packages run json_loads str_lower self = Return ∅) ∧
     (∀ items installed, json_loads (stdout p) = Return (PyList items) →
        packages_dict str_lower ∅ items = Return installed →
        get_installed_packages run json_loads str_lower self = Return installed ∧
        (∀ k v, installed !! k = Some v →
           ∃ pkg n, pkg ∈ items ∧ py_getitem pkg "name" = Return (PyStr n) ∧
             k = str_lower n ∧ py_getitem pkg "version" = Return v) ∧
        (∀ pkg n, pkg ∈ items → py_getitem pkg "name" = Return (PyStr n) →
           is_Some (installed !! str_lower n)) ∧
        ((∀ s, str_lower (str_lower s) = str_lower s) →
         ∀ k, is_Some (installed !! k) → str_lower k = k))).
Proof.
  unfold get_installed_packages, list_packages, run_checked.
  split_and!.
  - destruct (_ ≫= _); eauto.
  - by intros e ->.
  - by intros e ->.
  - intros p -> Hp. simpl. by rewrite bool_decide_eq_false_2.
  - intros p -> Hp. simpl. rewrite bool_decide_eq_true_2 by done. simpl.
    split_and!.
    + by intros e ->.
    + intros packages e -> He. simpl in *. by rewrite He.
    + intros items installed -> Hd. simpl. rewrite Hd. split_and!; [done| | |].
      * intros k v Hk.
        destruct (packages_dict_lookup _ _ _ _ _ _ Hd Hk) as [?|(pkg & n & H)];
          [by rewrite lookup_empty in *|].
        by exists pkg, n.
      * intros pkg n. by apply (packages_dict_covers str_lower items ∅).
      * intros Hidem k [v Hk].
        destruct (packages_dict_lookup _ _ _ _ _ _ Hd Hk) as [?|(pkg & n & H)];
          [by rewrite lookup_empty in *|].
        destruct H as (_ & _ & -> & _). apply Hidem.
Qed.

Lemma get_installed_packages_soft_failure_witness :
  get_installed_packages Pip.run_unavailable Pip.json_loads Pip.str_lower Pip.global = Return ∅ ∧
  get_installed_packages Pip.run_failing Pip.json_loads Pip.str_lower Pip.global = Return ∅ ∧
  get_installed_packages Pip.run Pip.json_loads Pip.str_lower Pip.global
  = Return {[ "numpy" := PyStr "2.0.0"; "requests" := PyStr "2.31.0" ]}.
Proof.
  split_and!.
  - apply (proj1 (proj2 (proj2 (get_installed_packages_soft_failure
             Pip.run_unavailable Pip.json_loads Pip.str_lower Pip.global)))
             (OSError "No such file or directory")).
    reflexivity.
  - apply (proj1 (proj2 (proj2 (proj2 (get_installed_packages_soft_failure
             Pip.run_failing Pip.json_loads Pip.str_lower Pip.global))))
             (CompletedProcess 1 "" "No module named pip")).
    + reflexivity.
    + simpl. lia.
  - vm_compute. reflexivity.
Defined.

(** ** Installation *)

(** C2, at the input where the code departs from it. A child that cannot
    be started makes [subprocess.Popen], and [subprocess.run] when there is
    no sink, raise [OSError]; the only handler of [install_packages] is for
    [CalledProcessError], so the exception leaves the function. A child
    that starts and exits with a non-zero status gives [False] on both
    paths. *)
Theorem install_packages_start_fault_escapes :
  install_packages Posix.popen_unavailable Posix.run_unavailable Posix.opened
    ["numpy"] (Some Posix.take_line)
  = ([], Raise (OSError "No such file or directory")) ∧
  install_packages Posix.popen_unavailable Posix.run_unavailable Posix.opened
    ["numpy"] None
  = ([], Raise (OSError "No such file or directory")) ∧
  install_packages Posix.popen_failing Posix.run_failing Posix.opened
    ["numpy"] (Some Posix.take_line)
  = (["ERROR: No matching distribution found"], Return false) ∧
  install_packages Posix.popen_failing Posix.run_failing Posix.opened
    ["numpy"] None
  = ([], Return false).
Proof. vm_compute. auto. Qed.

(** What the handler does cover: an exit status that is not zero. *)
Lemma install_packages_nonzero_exit popen run self packages cb proc :
  packages ≠ [] →
  popen ([python_executable self; "-m"; "pip"; "install"] ++ packages) = Return proc →
  (∀ line, cb line = Return ()) →
  proc_returncode proc ≠ 0%Z →
  (install_packages popen run self packages (Some cb)).2 = Return false.
Proof.
  intros Hne Hp Hcb Hrc. destruct packages as [|pkg packages]; [done|].
  unfold install_packages, install_try. rewrite Hp.
  assert (Hd : ∀ lines taken,
    deliver cb taken lines = (taken ++ lines, Return ())).
  { induction lines as [|l lines IH]; intros taken; simpl.
    - by rewrite app_nil_r.
    - rewrite Hcb, IH. by rewrite <-app_assoc. }
  rewrite Hd. simpl. by rewrite bool_decide_eq_false_2.
Qed.

(** And what it does not: whatever [Popen] raises that is not a
    [CalledProcessError] is raised by [install_packages]. *)
Lemma install_packages_popen_raises popen run self packages cb e :
  packages ≠ [] →
  popen ([python_executable self; "-m"; "pip"; "install"] ++ packages) = Raise e →
  (∀ rc str output, e ≠ CalledProcessError rc str output) →
  install_packages popen run self packages (Some cb) = ([], Raise e).
Proof.
  intros Hne Hp He. destruct packages as [|pkg packages]; [done|].
  unfold install_packages, install_try. rewrite Hp.
  destruct e as [rc str output| | | | | | |]; try done.
by destruct (He rc str output).
Qed.

(** ** Environments *)

Section EnvironmentProps.

Variable sys_executable : string.
Variable os_name : string.
Variable path_join : string → string → string.
Variable FS : Type.
Variable isdir : FS → string → bool.
Variable exists_ : FS → string → bool.

Lemma detect_loop_first fs self root before c after :
  (∀ c', c' ∈ before → qualifies os_name path_join FS isdir exists_ fs root c' = false) →
  qualifies os_name path_join FS isdir exists_ fs root c = true →
  detect_loop sys_executable os_name path_join FS isdir exists_
    fs self root (before ++ c :: after)
  = (activated os_name path_join self root c, true).
Proof.
  unfold qualifies. induction before as [|c0 before IH]; intros Hb Hc; simpl.
  - by rewrite Hc.
  - rewrite (Hb c0) by left. apply IH; [|done].
    intros c' Hc'. apply Hb. by right.
Qed.

Lemma detect_loop_none fs self root candidates :
  (∀ c, c ∈ candidates → qualifies os_name path_join FS isdir exists_ fs root c = false) →
  detect_loop sys_executable os_name path_join FS isdir exists_
    fs self root candidates
  = (global sys_executable self, false).
Proof.
  unfold qualifies. induction candidates as [|c candidates IH]; intros Hn; simpl.
  - done.
  - rewrite (Hn c) by left. apply IH. intros c' Hc'. apply Hn. by right.
Qed.

(** Among candidates of which one qualifies, there is a first one. *)
Lemma first_qualifying fs root candidates c :
  c ∈ candidates → qualifies os_name path_join FS isdir exists_ fs root c = true →
  ∃ before c' after, candidates = before ++ c' :: after ∧
    (∀ c0, c0 ∈ before → qualifies os_name path_join FS isdir exists_ fs root c0 = false) ∧
    qualifies os_name path_join FS isdir exists_ fs root c' = true.
Proof.
  induction candidates as [|c0 candidates IH]; intros Hin Hc.
  - by apply elem_of_nil in Hin.
  - destruct (qualifies os_name path_join FS isdir exists_ fs root c0) eqn:H0.
    + exists [], c0, candidates. split_and!; [done| |done].
      intros ? []%elem_of_nil.
    + apply elem_of_cons in Hin as [->|Hin]; [congruence|].
      destruct (IH Hin Hc) as (before & c' & after & -> & Hb & Hc').
      exists (c0 :: before), c', after. split_and!; [done| |done].
      intros c1 [->|?]%elem_of_cons; auto.
Qed.

Lemma detect_venv_root fs self root :
  project_path self = Some root → root ≠ EmptyString →
  detect_venv sys_executable os_name path_join FS isdir exists_ fs self
  = detect_loop sys_executable os_name path_join FS isdir exists_
      fs self root venv_candidates.
Proof.
  intros Hp Hr. unfold detect_venv. rewrite Hp. simpl.
  by rewrite bool_decide_eq_false_2.
Qed.

End EnvironmentProps.

(** C7. Under a project root, a candidate directory that is a directory
    and holds the interpreter of the platform ([Scripts/python.exe] on
    [nt], [bin/python] elsewhere) is activated by [detect_venv] whenever no
    candidate before it in the list qualifies as well, so in particular
    when it is the only one that qualifies, and always when it is [venv]:
    [detect_venv] returns [True], [venv_path] is that directory and
    [python_executable] the interpreter inside it. Whenever some candidate
    qualifies, the one activated is the first that does. When no candidate
    qualifies, [venv_path] is [None] and [python_executable] is the host
    interpreter. *)
Theorem detect_venv_activates
    (sys_executable os_name : string) (path_join : string → string → string)
    (FS : Type) (isdir exists_ : FS → string → bool)
    (fs : FS) (self : manager) (root : string) :
  project_path self = Some root → root ≠ EmptyString →
  let detect := detect_venv sys_executable os_name path_join FS isdir exists_ fs self in
  let python_exe := python_exe_in os_name path_join in
  let holds c :=
    isdir fs (path_join root c) && exists_ fs (python_exe (path_join root c)) in
  let active c :=
    (Manager (Some root) (Some (path_join root c)) (python_exe (path_join root c)),
     true) in
  (∀ before c after, venv_candidates = before ++ c :: after →
     holds c = true → (∀ c', c' ∈ before → holds c' = false) →
     detect = active c) ∧
  (∀ c, c ∈ venv_candidates → holds c = true →
     (∀ c', c' ∈ venv_candidates → c' ≠ c → holds c' = false) →
     detect = active c) ∧
  (∀ c, c ∈ venv_candidates → holds c = true →
     ∃ before c' after, venv_candidates = before ++ c' :: after ∧
       (∀ c0, c0 ∈ before → holds c0 = false) ∧ holds c' = true ∧
       detect = active c') ∧
  (holds "venv" = true → detect = active "venv") ∧
  ((∀ c, c ∈ venv_candidates → holds c = false) →
   detect = (Manager (Some root) None sys_executable, false)).
Proof.
  intros Hp Hr detect python_exe holds active.
  assert (Hfirst : ∀ before c after, venv_candidates = before ++ c :: after →
     holds c = true → (∀ c', c' ∈ before → holds c' = false) →
     detect = active c).
  { intros before c after Heq Hc Hb. subst detect active. simpl.
    rewrite (detect_venv_root _ _ _ _ _ _ _ _ root Hp Hr), Heq.
    rewrite (detect_loop_first sys_executable); [|exact Hb|exact Hc].
    unfold activated. by rewrite Hp. }
  split_and!.
  - exact Hfirst.
  - intros c Hin Hc Hothers.
    destruct (list_elem_of_split _ _ Hin) as (before & after & Heq).
    apply (Hfirst before c after Heq Hc).
    intros c' Hc'. apply Hothers.
    + rewrite Heq. apply elem_of_app. by left.
    + intros ->.
      assert (Hnd : NoDup venv_candidates)
        by (unfold venv_candidates; repeat constructor; set_solver).
      rewrite Heq in Hnd. apply NoDup_app in Hnd as (_ & Hnd & _).
      apply (Hnd c Hc'). left.
  - intros c Hin Hc.
    destruct (first_qualifying os_name path_join FS isdir exists_ fs root
                venv_candidates c Hin Hc) as (before & c' & after & Heq & Hb & Hc').
    exists before, c', after. split_and!; [done..|]. by apply (Hfirst before c' after).
  - intros Hv. apply (Hfirst [] "venv" ["env"; ".venv"; ".env"]); [done..|].
    intros ? []%elem_of_nil.
  - intros Hn. subst detect.
    rewrite (detect_venv_root _ _ _ _ _ _ _ _ root Hp Hr).
    rewrite detect_loop_none by exact Hn. unfold global. by rewrite Hp.
Qed.

Lemma detect_venv_activates_witness :
  detect_venv Posix.sys_executable Posix.os_name Posix.join (list string)
    Posix.isdir Posix.exists_ Posix.one_env Posix.opened
  = (Manager (Some "/p") (Some "/p/.venv") "/p/.venv/bin/python", true).
Proof.
  apply (proj1 (detect_venv_activates
           Posix.sys_executable Posix.os_name Posix.join (list string)
           Posix.isdir Posix.exists_ Posix.one_env Posix.opened "/p"
           eq_refl ltac:(discriminate))
           ["venv"; "env"] ".venv" [".env"]).
  - reflexivity.
  - vm_compute. reflexivity.
  - intros c' Hc'. apply elem_of_cons in Hc' as [->|Hc'].
    + vm_compute. reflexivity.
    + apply list_elem_of_singleton in Hc' as ->. vm_compute. reflexivity.
Defined.

(** C10. The candidates are [venv], [env], [.venv], [.env] in this order,
    and [detect_venv] activates the first of them that qualifies, whatever
    the later ones are; when [venv] and [env] both qualify, [venv] is
    activated. *)
Theorem detect_venv_first_candidate
    (sys_executable os_name : string) (path_join : string → string → string)
    (FS : Type) (isdir exists_ : FS → string → bool)
    (fs : FS) (self : manager) (root : string) :
  project_path self = Some root → root ≠ EmptyString →
  let detect := detect_venv sys_executable os_name path_join FS isdir exists_ fs self in
  let qualifies c := is_venv os_name path_join FS isdir exists_ fs (path_join root c) in
  let activated c := Manager (Some root) (Some (path_join root c))
                       (python_exe_in os_name path_join (path_join root c)) in
  venv_candidates = ["venv"; "env"; ".venv"; ".env"] ∧
  (∀ before c after, venv_candidates = before ++ c :: after →
     (∀ c', c' ∈ before → qualifies c' = false) → qualifies c = true →
     detect = (activated c, true)) ∧
  (qualifies "venv" = true → qualifies "env" = true →
     detect = (activated "venv", true)).
Proof.
  intros Hp Hr detect qual act. subst detect qual act.
  rewrite (detect_venv_root _ _ _ _ _ _ _ _ root Hp Hr).
  split_and!.
  - done.
  - intros before c after -> Hb Hc.
    rewrite (detect_loop_first sys_executable) by done.
    unfold activated. by rewrite Hp.
  - intros Hv _.
    change venv_candidates with ([] ++ "venv" :: ["env"; ".venv"; ".env"]).
    rewrite (detect_loop_first sys_executable os_name path_join FS isdir exists_
               fs self root [] "venv" ["env"; ".venv"; ".env"]).
    + unfold activated. by rewrite Hp.
    + intros ? []%elem_of_nil.
    + done.
Qed.

Lemma detect_venv_first_candidate_witness :
  is_venv Posix.os_name Posix.join (list string) Posix.isdir Posix.exists_
    Posix.two_envs (Posix.join "/p" "env") = true ∧
  detect_venv Posix.sys_executable Posix.os_name Posix.join (list string)
    Posix.isdir Posix.exists_ Posix.two_envs Posix.opened
  = (Manager (Some "/p") (Some "/p/venv") "/p/venv/bin/python", true).
Proof.
  split; [vm_compute; reflexivity|].
  apply (proj2 (proj2 (detect_venv_first_candidate
           Posix.sys_executable Posix.os_name Posix.join (list string)
           Posix.isdir Posix.exists_ Posix.two_envs Posix.opened "/p"
           eq_refl ltac:(discriminate)))).
  - vm_compute. reflexivity.
  - vm_compute. reflexivity.
Defined.

(** C8. [create_venv] raises, and leaves the manager and the file system
    as they were, when no project path is set and when the target path
    exists under the project root. Creating an environment makes its
    directory exist, so after a call that returned [True] a second call
    with the same name raises, and [venv_path] and [python_executable] stay
    those of the first environment. *)
Theorem create_venv_conflict
    (os_name : string) (path_join : string → string → string)
    (FS : Type) (exists_ : FS → string → bool)
    (venv_create : FS → string → FS * result unit) :
  (∀ fs p fs' u, venv_create fs p = (fs', Return u) → exists_ fs' p = true) →
  let create := create_venv os_name path_join FS exists_ venv_create in
  let conflict venv_name :=
    Exception ("Virtual environment '" +:+ venv_name +:+ "' already exists") in
  (∀ fs self venv_name, truthy (project_path self) = false →
     create fs self venv_name = (fs, self, Raise (Exception "No project path set"))) ∧
  (∀ fs self venv_name root,
     project_path self = Some root → root ≠ EmptyString →
     exists_ fs (path_join root venv_name) = true →
     create fs self venv_name = (fs, self, Raise (conflict venv_name))) ∧
  (∀ fs self venv_name fs1 self1,
     create fs self venv_name = (fs1, self1, Return true) →
     create fs1 self1 venv_name = (fs1, self1, Raise (conflict venv_name))).
Proof.
  intros Hcreate create conflict. subst create conflict. split_and!.
  - intros fs self venv_name Hp. unfold create_venv. by rewrite Hp.
  - intros fs self venv_name root Hp Hr He. unfold create_venv.
    rewrite Hp. simpl. rewrite bool_decide_eq_false_2 by done. simpl.
    by rewrite He.
  - intros fs self venv_name fs1 self1. unfold create_venv at 1.
    destruct (truthy (project_path self)) eqn:Hp; simpl; [|done].
    destruct (exists_ fs _) eqn:He; [done|].
    destruct (venv_create fs _) as [fs' [u|e]] eqn:Hc; [|done].
    intros [= <- <-]. apply Hcreate in Hc.
    unfold create_venv. simpl. by rewrite Hp, Hc.
Qed.

Lemma create_venv_conflict_witness :
  create_venv Posix.os_name Posix.join (list string) Posix.exists_ Posix.venv_create
    Posix.no_env Posix.opened "venv"
  = ("/p/venv" :: "/p/venv/bin" :: "/p/venv/bin/python" :: Posix.no_env,
     Manager (Some "/p") (Some "/p/venv") "/p/venv/bin/python", Return true) ∧
  create_venv Posix.os_name Posix.join (list string) Posix.exists_ Posix.venv_create
    ("/p/venv" :: "/p/venv/bin" :: "/p/venv/bin/python" :: Posix.no_env)
    (Manager (Some "/p") (Some "/p/venv") "/p/venv/bin/python") "venv"
  = ("/p/venv" :: "/p/venv/bin" :: "/p/venv/bin/python" :: Posix.no_env,
     Manager (Some "/p") (Some "/p/venv") "/p/venv/bin/python",
     Raise (Exception "Virtual environment 'venv' already exists")).
Proof.
  assert (H : create_venv Posix.os_name Posix.join (list string) Posix.exists_
                Posix.venv_create Posix.no_env Posix.opened "venv"
              = ("/p/venv" :: "/p/venv/bin" :: "/p/venv/bin/python" :: Posix.no_env,
                 Manager (Some "/p") (Some "/p/venv") "/p/venv/bin/python",
                 Return true)) by (vm_compute; reflexivity).
  split; [exact H|].
  refine (proj2 (proj2 (create_venv_conflict Posix.os_name Posix.join (list string)
            Posix.exists_ Posix.venv_create _)) _ _ _ _ _ H).
  intros fs p fs' u [= <- _]. unfold Posix.exists_.
  apply bool_decide_eq_true. left.
Defined.

(** * Further properties *)

(** ** Standard-library classification *)

Lemma prefix_app sub s :
  String.prefix sub s = true ↔ ∃ post, s = sub +:+ post.
Proof.
  revert s. induction sub as [|a sub IH]; intros s.
  - split; [intros _; by exists s|]. by destruct s.
  - destruct s as [|b s]; simpl.
    + split; [done|]. by intros [post H].
    + destruct (ascii_dec a b) as [->|Hne].
      * rewrite IH. split; intros [post H]; exists post.
        -- unfold String.app in *. simpl. by rewrite H.
        -- unfold String.app in *. simpl in H. by simplify_eq.
      * split; [done|]. intros [post H]. unfold String.app in H. simpl in H.
        by simplify_eq.
Qed.

(** [Str.contains] is Python's substring test. *)
Lemma contains_app sub s :
  Str.contains sub s = true ↔ ∃ pre post, s = pre +:+ sub +:+ post.
Proof.
  induction s as [|c s IH].
  - cbn [Str.contains]. rewrite orb_false_r, prefix_app. split.
    + intros [post H]. by exists EmptyString, post.
    + intros (pre & post & H). exists post.
      destruct pre; [done|]. unfold String.app in H. by simpl in H.
  - cbn [Str.contains]. rewrite orb_true_iff, IH, prefix_app. split.
    + intros [[post H]|(pre & post & H)].
      * by exists EmptyString, post.
      * exists (String c pre), post. unfold String.app in *. simpl. by rewrite H.
    + intros (pre & post & H). destruct pre as [|c' pre].
      * left. by exists post.
      * right. exists pre, post. unfold String.app in *. simpl in H. by simplify_eq.
Qed.

(** X1. Every name of [sys.builtin_module_names] is classified standard
    library, whether or not it is an identifier and whatever [find_spec]
    does. *)
Theorem is_standard_library_builtin
    (builtin_module_names : list string) (find_spec : string → find_spec_result)
    (module_name : string) :
  module_name ∈ builtin_module_names →
  is_standard_library builtin_module_names find_spec module_name = true.
Proof.
  intros Hin. unfold is_standard_library.
  destruct (negb (Str.match_identifier module_name)); [done|].
  by rewrite bool_decide_eq_true_2.
Qed.

Lemma is_standard_library_builtin_witness :
  is_standard_library Host.builtin_module_names Host.find_spec "sys" = true.
Proof.
  apply is_standard_library_builtin. unfold Host.builtin_module_names. set_solver.
Defined.

(** X2. For an identifier that is not built in and that [find_spec]
    resolves to an origin path, the classifier answers third party exactly
    when the path has [site-packages] or [dist-packages] as a substring. *)
Theorem is_standard_library_third_party
    (builtin_module_names : list string) (find_spec : string → find_spec_result)
    (module_name origin : string) :
  Str.match_identifier module_name = true →
  module_name ∉ builtin_module_names →
  find_spec module_name = FindSpec (Some origin) →
  (is_standard_library builtin_module_names find_spec module_name = false ↔
   ∃ pre post, origin = pre +:+ "site-packages" +:+ post ∨
               origin = pre +:+ "dist-packages" +:+ post).
Proof.
  intros Hid Hnb Hspec. unfold is_standard_library.
  rewrite Hid, Hspec. simpl. rewrite bool_decide_eq_false_2 by done.
  case_bool_decide as Hb.
  - subst origin. split; [done|]. intros (pre & post & [H|H]).
    + assert (Hc : Str.contains "site-packages" "built-in" = true)
        by (apply contains_app; eauto). by vm_compute in Hc.
    + assert (Hc : Str.contains "dist-packages" "built-in" = true)
        by (apply contains_app; eauto). by vm_compute in Hc.
  - rewrite andb_false_iff, !negb_false_iff, !contains_app. naive_solver.
Qed.

Lemma is_standard_library_third_party_witness :
  is_standard_library Host.builtin_module_names Host.find_spec "requests" = false.
Proof.
  apply (is_standard_library_third_party Host.builtin_module_names Host.find_spec
           "requests" "/usr/lib/python3.11/site-packages/requests/__init__.py").
  - vm_compute. reflexivity.
  - unfold Host.builtin_module_names. set_solver.
  - vm_compute. reflexivity.
  - exists "/usr/lib/python3.11/", "/requests/__init__.py". left. reflexivity.
Defined.

Lemma match_tail_word s :
  Str.match_tail s = true →
  ∀ c, c ∈ list_ascii_of_string s → Str.is_word c = true ∨ Str.is_newline c = true.
Proof.
  induction s as [|a s IH]; simpl; intros H c Hc.
  - by apply elem_of_nil in Hc.
  - apply elem_of_cons in Hc as [->|Hc].
    + destruct (Str.is_word a); [by left|]. right. by apply andb_prop in H as [? _].
    + destruct (Str.is_word a); [by apply IH|].
      apply andb_prop in H as [_ H]. apply bool_decide_eq_true in H. subst s.
      by apply elem_of_nil in Hc.
Qed.

Lemma missing_packages_same
    (builtin_module_names : list string) (find_spec : string → find_spec_result)
    (installed : gmap string pyval) (imports1 imports2 : gset string) :
  (∀ imp, is_standard_library builtin_module_names find_spec imp = false →
          (imp ∈ imports1 ↔ imp ∈ imports2)) →
  missing_packages builtin_module_names find_spec installed imports1
  = missing_packages builtin_module_names find_spec installed imports2.
Proof.
  intros Hsame. unfold missing_packages. do 2 f_equal.
  apply set_eq. intros x. rewrite !elem_of_missing_fold.
  setoid_rewrite elem_of_elements. unfold contributes.
  split; (intros [?|(imp & Hin & Hstd & ?)]; [by left|]);
    right; exists imp; (split; [by apply (Hsame imp Hstd)|done]).
Qed.

(** X3. A name with a character outside [[a-zA-Z0-9_]] that is not a
    newline (a dot, a hyphen, a space, ...) is classified standard library
    on every host, so as an import it adds nothing to the list of missing
    packages. *)
Theorem is_standard_library_not_identifier
    (builtin_module_names : list string) (find_spec : string → find_spec_result)
    (module_name : string) (c : ascii) :
  c ∈ list_ascii_of_string module_name →
  Str.is_word c = false → Str.is_newline c = false →
  is_standard_library builtin_module_names find_spec module_name = true ∧
  ∀ (installed : gmap string pyval) (imports : gset string),
    missing_packages builtin_module_names find_spec installed
      (imports ∪ {[ module_name ]})
    = missing_packages builtin_module_names find_spec installed imports.
Proof.
  intros Hc Hw Hn.
  assert (Hstd : is_standard_library builtin_module_names find_spec module_name = true).
  { unfold is_standard_library.
    destruct (Str.match_identifier module_name) eqn:Hid; [|done].
    exfalso. destruct module_name as [|a s]; [done|]. simpl in Hid, Hc.
    apply andb_prop in Hid as [Ha Hs].
    apply elem_of_cons in Hc as [->|Hc].
    - unfold Str.is_word in Hw. by rewrite Ha in Hw.
    - destruct (match_tail_word s Hs c Hc); congruence. }
  split; [exact Hstd|]. intros installed imports.
  apply missing_packages_same. intros imp Himp.
  rewrite elem_of_union, elem_of_singleton. split; [|by left].
  intros [?| ->]; [done|congruence].
Qed.

Lemma is_standard_library_not_identifier_witness :
  is_standard_library Host.builtin_module_names Host.find_spec "scikit-learn" = true.
Proof.
  apply (is_standard_library_not_identifier
           Host.builtin_module_names Host.find_spec "scikit-learn" "-"%char).
  - simpl. set_solver.
  - vm_compute. reflexivity.
  - vm_compute. reflexivity.
Defined.

(** ** Missing packages *)

Lemma list_nil_no_elem {A} (l : list A) : (∀ x, x ∉ l) → l = [].
Proof. destruct l as [|a l]; [done|]. intros H. destruct (H a). left. Qed.

(** X4. The missing list shrinks as packages get installed: when every
    installed name stays installed, every name still reported missing was
    reported before. *)
Theorem missing_packages_antitone
    (builtin_module_names : list string) (find_spec : string → find_spec_result)
    (installed installed' : gmap string pyval) (imports : gset string) (x : string) :
  (∀ k, is_Some (installed !! k) → is_Some (installed' !! k)) →
  x ∈ missing_packages builtin_module_names find_spec installed' imports →
  x ∈ missing_packages builtin_module_names find_spec installed imports.
Proof.
  intros Hsub. rewrite !elem_of_missing_packages.
  intros (imp & Himp & Hstd & Hnone & ->). exists imp. split; [done|].
  split_and!; [done| |done].
  destruct (installed !! package_name imp) eqn:Hk; [|done].
  destruct (Hsub (package_name imp)) as [v Hv]; [by rewrite Hk|]. congruence.
Qed.

Lemma missing_packages_antitone_witness :
  "numpy" ∈ missing_packages Host.builtin_module_names Host.find_spec
              (∅ : gmap string pyval) {[ "numpy"; "cv2" ]}.
Proof.
  apply (missing_packages_antitone Host.builtin_module_names Host.find_spec
           ∅ {[ "opencv-python" := PyStr "4.9.0" ]}).
  - intros k [v Hv]. by rewrite lookup_empty in Hv.
  - vm_compute. left.
Defined.

(** X5. Once every name reported missing is installed under its lower-case
    form, nothing is reported missing. *)
Theorem missing_packages_closed
    (builtin_module_names : list string) (find_spec : string → find_spec_result)
    (installed installed' : gmap string pyval) (imports : gset string) :
  (∀ k, is_Some (installed !! k) → is_Some (installed' !! k)) →
  (∀ x, x ∈ missing_packages builtin_module_names find_spec installed imports →
        is_Some (installed' !! Str.lower x)) →
  missing_packages builtin_module_names find_spec installed' imports = [].
Proof.
  intros Hsub Hnew. apply list_nil_no_elem. intros x Hx.
  pose proof (missing_packages_antitone _ _ _ _ _ _ Hsub Hx) as Hold.
  apply Hnew in Hold as [v Hv].
  apply elem_of_missing_packages in Hx as (imp & _ & _ & Hnone & ->).
  rewrite install_name_lower in Hv. congruence.
Qed.

Lemma missing_packages_closed_witness :
  missing_packages Host.builtin_module_names Host.find_spec
    ({[ "opencv-python" := PyStr "4.9.0"; "numpy" := PyStr "2.0.0" ]}
       : gmap string pyval) {[ "NumPy"; "cv2"; "os" ]} = [].
Proof.
  apply (missing_packages_closed Host.builtin_module_names Host.find_spec ∅).
  - intros k [v Hv]. by rewrite lookup_empty in Hv.
  - assert (H : missing_packages Host.builtin_module_names Host.find_spec
                  (∅ : gmap string pyval) {[ "NumPy"; "cv2"; "os" ]}
                = ["NumPy"; "opencv-python"]) by (vm_compute; reflexivity).
    rewrite H. clear H. intros x Hx.
    apply elem_of_cons in Hx as [->|Hx]; [vm_compute; eauto|].
    apply elem_of_cons in Hx as [->|Hx]; [vm_compute; eauto|].
    destruct (proj1 (elem_of_nil x) Hx).
Defined.

(** X6. When the package manager cannot be queried,
    [get_missing_packages] reports the install name of every import that
    is not standard library. *)
Theorem get_missing_packages_manager_unavailable
    (builtin_module_names : list string) (find_spec : string → find_spec_result)
    (run : list string → result completed_process)
    (json_loads : string → result pyval)
    (str_lower : string → string)
    (self : manager) (imports : gset string) (e : exn) :
  run (pip_list self) = Raise e →
  ∃ missing,
    get_missing_packages builtin_module_names find_spec run json_loads str_lower self imports
    = Return missing ∧
    ∀ x, x ∈ missing ↔
         ∃ imp, imp ∈ imports ∧
           is_standard_library builtin_module_names find_spec imp = false ∧
           x = install_name imp.
Proof.
  intros Hrun. eexists. split.
  - unfold get_missing_packages, get_installed_packages, list_packages, run_checked.
    rewrite Hrun. reflexivity.
  - intros x. rewrite elem_of_missing_packages. unfold contributes.
    setoid_rewrite lookup_empty. naive_solver.
Qed.

Lemma get_missing_packages_manager_unavailable_witness :
  ∃ missing,
    get_missing_packages Host.builtin_module_names Host.find_spec
      Pip.run_unavailable Pip.json_loads Pip.str_lower Pip.global {[ "requests"; "os" ]}
    = Return missing ∧
    ∀ x, x ∈ missing ↔
         ∃ imp, imp ∈ ({[ "requests"; "os" ]} : gset string) ∧
           is_standard_library Host.builtin_module_names Host.find_spec imp = false ∧
           x = install_name imp.
Proof.
  apply (get_missing_packages_manager_unavailable _ _ _ _ _ _ _
           (OSError "No such file or directory")).
  reflexivity.
Defined.

Section MissingBound.

Variable builtin_module_names : list string.
Variable find_spec : string → find_spec_result.
Context {V : Type} (installed : gmap string V).

Lemma size_missing_step missing imp :
  size (missing_step builtin_module_names find_spec installed missing imp)
  ≤ S (size missing).
Proof.
  unfold missing_step.
  destruct (is_standard_library _ _ _); [lia|].
  case_bool_decide; [|lia].
  destruct (decide (install_name imp ∈ missing)) as [Hin|Hnin].
  - replace (missing ∪ {[install_name imp]}) with missing by set_solver. lia.
  - rewrite size_union by set_solver. rewrite size_singleton. lia.
Qed.

Lemma size_missing_fold l missing :
  size (foldl (missing_step builtin_module_names find_spec installed) missing l)
  ≤ size missing + length l.
Proof.
  revert missing. induction l as [|imp l IH]; intros missing; simpl; [lia|].
  etrans; [apply IH|]. pose proof (size_missing_step missing imp). lia.
Qed.

End MissingBound.

(** X7. [get_missing_packages] never reports more packages than there are
    imports. *)
Theorem missing_packages_length
    (builtin_module_names : list string) (find_spec : string → find_spec_result)
    (installed : gmap string pyval) (imports : gset string) :
  length (missing_packages builtin_module_names find_spec installed imports)
  ≤ size imports.
Proof.
  unfold missing_packages. rewrite merge_sort_Permutation.
  change (length (elements ?X)) with (size X).
  etrans; [apply size_missing_fold|]. rewrite size_empty. simpl.
  by change (length (elements imports)) with (size imports).
Qed.

(** ** Installation *)




(** X9. Without a sink nothing is delivered, [Popen] is not used, and the
    value is [True] when the run ends with status zero and [False] when it
    ends with another status; what [subprocess.run] raises itself is
    raised, unless it is a [CalledProcessError]. *)
Theorem install_packages_no_sink
    (popen : list string → result process)
    (run : list string → result completed_process)
    (self : manager) (packages : list string) :
  packages ≠ [] →
  install_packages popen run self packages None
  = ([], match run ([python_executable self; "-m"; "pip"; "install"] ++ packages) with
         | Return p => Return (bool_decide (returncode p = 0%Z))
         | Raise (CalledProcessError _ _ _) => Return false
         | Raise e => Raise e
         end).
Proof.
  intros Hne. destruct packages as [|pkg packages]; [done|].
  unfold install_packages, install_try, run_checked.
  destruct (run _) as [p|e]; simpl.
  - by case_bool_decide.
  - by destruct e.
Qed.

Lemma install_packages_no_sink_witness :
  install_packages Posix.popen_unavailable Posix.run_failing Posix.opened
    ["numpy"] None
  = ([], Return false).
Proof.
  apply (install_packages_no_sink Posix.popen_unavailable Posix.run_failing
           Posix.opened ["numpy"]).
  discriminate.
Defined.

(** X10. A sink that raises stops the delivery: the sink has taken the
    lines before the one it refused, and the exception leaves
    [install_packages] when it is not a [CalledProcessError]. *)
Theorem install_packages_sink_raises
    (popen : list string → result process)
    (run : list string → result completed_process)
    (self : manager) (packages : list string) (cb : sink) (proc : process)
    (before after : list string) (line : string) (e : exn) :
  packages ≠ [] →
  popen ([python_executable self; "-m"; "pip"; "install"] ++ packages) = Return proc →
  proc_lines proc = before ++ line :: after →
  (∀ l, l ∈ before → cb l = Return ()) →
  cb line = Raise e →
  (∀ rc str output, e ≠ CalledProcessError rc str output) →
  install_packages popen run self packages (Some cb) = (before, Raise e).
Proof.
  intros Hne Hp Hl Hb Hline He. destruct packages as [|pkg packages]; [done|].
  unfold install_packages, install_try. rewrite Hp, Hl.
  assert (Hd : ∀ taken, deliver cb taken (before ++ line :: after)
                        = (taken ++ before, Raise e)).
  { clear Hl. induction before as [|l before IH]; intros taken; simpl.
    - by rewrite Hline, app_nil_r.
    - rewrite (Hb l) by left. rewrite IH.
      + by rewrite <-app_assoc.
      + intros l' Hl'. apply Hb. by right. }
  rewrite Hd. simpl.
  destruct e as [rc str output| | | | | | |]; try done.
  by destruct (He rc str output).
Qed.

Lemma install_packages_sink_raises_witness :
  install_packages
    (λ _, Return (Process ["Collecting numpy"; "Downloading"; "Installing"] 0))
    Posix.run_failing Posix.opened ["numpy"]
    (Some (λ l, if bool_decide (l = "Downloading")
                then Raise (Exception "main thread is not in main loop")
                else Return ()))
  = (["Collecting numpy"], Raise (Exception "main thread is not in main loop")).
Proof.
  apply (install_packages_sink_raises _ _ _ _ _
           (Process ["Collecting numpy"; "Downloading"; "Installing"] 0)
           ["Collecting numpy"] ["Installing"] "Downloading").
  - discriminate.
  - reflexivity.
  - reflexivity.
  - intros l Hl. apply list_elem_of_singleton in Hl. by subst l.
  - reflexivity.
  - discriminate.
Defined.

(** ** Environments *)

Section EnvironmentMore.

Variable sys_executable : string.
Variable os_name : string.
Variable path_join : string → string → string.
Variable FS : Type.
Variable isdir : FS → string → bool.
Variable exists_ : FS → string → bool.

(** The loop reads nothing of the manager but its project path. *)
Lemma detect_loop_project fs self self' root candidates :
  project_path self = project_path self' →
  detect_loop sys_executable os_name path_join FS isdir exists_
    fs self root candidates
  = detect_loop sys_executable os_name path_join FS isdir exists_
      fs self' root candidates.
Proof.
  intros Hp. induction candidates as [|c candidates IH]; simpl.
  - by rewrite Hp.
  - destruct (is_venv _ _ _ _ _ _ _); [by rewrite Hp|done].
Qed.

Lemma detect_loop_shape fs self root candidates :
  let r := detect_loop sys_executable os_name path_join FS isdir exists_
             fs self root candidates in
  project_path r.1 = project_path self ∧
  env_consistent sys_executable os_name path_join r.1 ∧
  (r.2 = true ↔ is_Some (venv_path r.1)).
Proof.
  induction candidates as [|c candidates IH]; simpl.
  - split_and!; [done..|]. split; [done|]. by intros [? ?].
  - destruct (is_venv _ _ _ _ _ _ _); [|exact IH]. simpl.
    split_and!; [done..|]. split; eauto.
Qed.

End EnvironmentMore.

(** X11. [detect_venv] never changes the project path and leaves the
    manager consistent when it was: [python_executable] is the interpreter
    inside [venv_path], or the host interpreter when [venv_path] is [None].
    With a project path set, it returns [True] exactly when it leaves a
    [venv_path]; without one, it returns [False] and changes nothing. *)
Theorem detect_venv_consistent
    (sys_executable os_name : string) (path_join : string → string → string)
    (FS : Type) (isdir exists_ : FS → string → bool)
    (fs : FS) (self : manager) :
  let r := detect_venv sys_executable os_name path_join FS isdir exists_ fs self in
  project_path r.1 = project_path self ∧
  (env_consistent sys_executable os_name path_join self →
   env_consistent sys_executable os_name path_join r.1) ∧
  (truthy (project_path self) = true →
   env_consistent sys_executable os_name path_join r.1 ∧
   (r.2 = true ↔ is_Some (venv_path r.1))) ∧
  (truthy (project_path self) = false → r = (self, false)).
Proof.
  unfold detect_venv. destruct (truthy (project_path self)) eqn:Hp; simpl.
  - destruct (detect_loop_shape sys_executable os_name path_join FS isdir exists_
                fs self (default EmptyString (project_path self)) venv_candidates)
      as (H1 & H2 & H3).
    split_and!; try done.
  - by split_and!.
Qed.

(** X12. Detecting twice on the same file system changes nothing more:
    the second detection returns what the first returned. *)
Theorem detect_venv_idempotent
    (sys_executable os_name : string) (path_join : string → string → string)
    (FS : Type) (isdir exists_ : FS → string → bool)
    (fs : FS) (self : manager) :
  detect_venv sys_executable os_name path_join FS isdir exists_ fs
    (detect_venv sys_executable os_name path_join FS isdir exists_ fs self).1
  = detect_venv sys_executable os_name path_join FS isdir exists_ fs self.
Proof.
  pose proof (detect_venv_consistent sys_executable os_name path_join FS
                isdir exists_ fs self) as (Hp & _ & _ & Hn).
  destruct (truthy (project_path self)) eqn:Ht.
  - unfold detect_venv at 1. rewrite Hp, Ht.
    unfold detect_venv at 2. rewrite Ht.
    apply detect_loop_project. by rewrite Hp.
  - rewrite (Hn eq_refl). simpl. by apply Hn.
Qed.

(** X13. A manager is consistent when it is built, and [create_venv] keeps
    it consistent and keeps its project path, whether it returns or
    raises. *)
Theorem manager_consistent
    (sys_executable os_name : string) (path_join : string → string → string)
    (FS : Type) (isdir exists_ : FS → string → bool)
    (venv_create : FS → string → FS * result unit) (fs : FS) :
  (∀ project_path,
     env_consistent sys_executable os_name path_join
       (init sys_executable os_name path_join FS isdir exists_ fs project_path)) ∧
  (∀ self venv_name,
     let r := create_venv os_name path_join FS exists_ venv_create fs self venv_name in
     project_path r.1.2 = project_path self ∧
     (env_consistent sys_executable os_name path_join self →
      env_consistent sys_executable os_name path_join r.1.2)).
Proof.
  split.
  - intros pp. unfold init. destruct (truthy pp) eqn:Hp; [|done].
    by apply (detect_venv_consistent sys_executable os_name path_join FS isdir
                exists_ fs (Manager pp None sys_executable)).
  - intros self venv_name. unfold create_venv.
    destruct (truthy (project_path self)); simpl; [|done].
    destruct (exists_ fs _); [done|].
    by destruct (venv_create fs _) as [fs' [u|e]].
Qed.

(** X14. Creation and detection agree. When [venv.create] leaves a
    directory with the interpreter of the platform inside, a successful
    [create_venv] under a candidate name that no earlier candidate
    precedes with an environment of its own is found again by
    [detect_venv], which leaves the manager as [create_venv] left it. *)
Theorem create_then_detect
    (sys_executable os_name : string) (path_join : string → string → string)
    (FS : Type) (isdir exists_ : FS → string → bool)
    (venv_create : FS → string → FS * result unit)
    (fs fs1 : FS) (self self1 : manager) (before after : list string) (c : string) :
  (∀ fs p fs' u, venv_create fs p = (fs', Return u) →
     isdir fs' p = true ∧ exists_ fs' (python_exe_in os_name path_join p) = true) →
  venv_candidates = before ++ c :: after →
  create_venv os_name path_join FS exists_ venv_create fs self c
  = (fs1, self1, Return true) →
  (∀ c', c' ∈ before →
     qualifies os_name path_join FS isdir exists_ fs1
       (default EmptyString (project_path self)) c' = false) →
  detect_venv sys_executable os_name path_join FS isdir exists_ fs1 self1
  = (self1, true).
Proof.
  intros Hcreate Hc. unfold create_venv.
  destruct (truthy (project_path self)) eqn:Hp; simpl; [|done].
  destruct (exists_ fs _); [done|].
  destruct (venv_create fs _) as [fs' [u|e]] eqn:Hv; [|done].
  intros [= <- <-] Hb. apply Hcreate in Hv as [Hd He].
  unfold detect_venv. cbn [project_path]. rewrite Hp, Hc.
  rewrite (detect_loop_first sys_executable); [done|exact Hb|].
  unfold qualifies, is_venv. by rewrite Hd, He.
Qed.

Lemma create_then_detect_witness :
  detect_venv Posix.sys_executable Posix.os_name Posix.join (list string)
    Posix.isdir Posix.exists_
    ("/p/venv" :: "/p/venv/bin" :: "/p/venv/bin/python" :: Posix.no_env)
    (Manager (Some "/p") (Some "/p/venv") "/p/venv/bin/python")
  = (Manager (Some "/p") (Some "/p/venv") "/p/venv/bin/python", true).
Proof.
  apply (create_then_detect Posix.sys_executable Posix.os_name Posix.join
           (list string) Posix.isdir Posix.exists_ Posix.venv_create
           Posix.no_env _ Posix.opened _ [] ["env"; ".venv"; ".env"] "venv").
  - intros fs p fs' u [= <- _]. unfold Posix.isdir, Posix.exists_.
    split; apply bool_decide_eq_true.
    + left.
    + right. right. left.
  - reflexivity.
  - vm_compute. reflexivity.
  - intros c' Hc'. by apply elem_of_nil in Hc'.
Defined.

(** ** Import extraction *)

(** X15. The names of a list of files are the names of its parts taken
    together, so neither the order of the files nor a file listed twice
    changes the result. *)
Theorem analyze_imports_app_perm
    (read_file : string → result string) (ast_parse : string → result node) :
  (∀ files1 files2,
     analyze_imports read_file ast_parse (files1 ++ files2)
     = analyze_imports read_file ast_parse files1
       ∪ analyze_imports read_file ast_parse files2) ∧
  (∀ files1 files2, (∀ f, f ∈ files1 ↔ f ∈ files2) →
     analyze_imports read_file ast_parse files1
     = analyze_imports read_file ast_parse files2).
Proof.
  split.
  - intros files1 files2. apply set_eq. intros x.
    rewrite elem_of_union, !elem_of_analyze_imports.
    setoid_rewrite elem_of_app. naive_solver.
  - intros files1 files2 Hsame. apply set_eq. intros x.
    rewrite !elem_of_analyze_imports. by setoid_rewrite Hsame.
Qed.

(** X16. A file that cannot be opened or decoded is skipped like one that
    does not parse: the result is that of the list without it. *)
Theorem analyze_imports_skips_unreadable
    (read_file : string → result string) (ast_parse : string → result node)
    (file : string) (e : exn) (before after : list string) :
  read_file file = Raise e →
  analyze_imports read_file ast_parse (before ++ file :: after)
  = analyze_imports read_file ast_parse (before ++ after).
Proof.
  intros Hr. rewrite !analyze_imports_union.
  rewrite (parsed_skip _ _ _ _ _ e); [done|].
  unfold parse_file. by rewrite Hr.
Qed.

Lemma analyze_imports_skips_unreadable_witness :
  analyze_imports Project.read_file Project.ast_parse
    (["main.py"] ++ "missing.py" :: [])
  = analyze_imports Project.read_file Project.ast_parse (["main.py"] ++ []).
Proof.
  apply (analyze_imports_skips_unreadable Project.read_file Project.ast_parse
           "missing.py" (OSError "No such file or directory")).
  reflexivity.
Defined.

(** ** Code analysis *)

Lemma syntax_children_ind (P : CodeAnalyzer.syntax → Prop) :
  (∀ n, Forall P (iter_child_nodes n) → P n) → ∀ n, P n.
Proof.
  intros H. fix IH 1. intros n. apply H.
  destruct n as [nm l a cs|nm l cs|names|m names lvl|ts cs|cs]; simpl;
    try constructor;
    induction cs as [|c cs IHcs]; constructor; auto.
Qed.

Lemma levels_children n :
  CodeAnalyzer.levels n
  = [n] :: foldr (λ c acc, CodeAnalyzer.zip_app (CodeAnalyzer.levels c) acc) []
             (iter_child_nodes n).
Proof. by destruct n. Qed.

Lemma descendants_children n :
  descendants n = n :: concat (descendants <$> iter_child_nodes n).
Proof. by destruct n. Qed.

Lemma concat_zip_app {A} (l1 l2 : list (list A)) :
  concat (CodeAnalyzer.zip_app l1 l2) ≡ₚ concat l1 ++ concat l2.
Proof.
  revert l2. induction l1 as [|x l1 IH]; intros [|y l2]; simpl; try done.
  - by rewrite app_nil_r.
  - rewrite IH. solve_Permutation.
Qed.

(** [ast.walk] visits every node of the tree once. *)
Lemma walk_descendants tree : CodeAnalyzer.walk tree ≡ₚ descendants tree.
Proof.
  unfold CodeAnalyzer.walk.
  induction tree as [n IH] using syntax_children_ind.
  rewrite levels_children, descendants_children. simpl. constructor.
  induction IH as [|c cs Hc _ IHcs]; simpl; [done|].
  by rewrite concat_zip_app, Hc, IHcs.
Qed.

Lemma visit_fold (l : list CodeAnalyzer.syntax) : ∀ ins,
  foldl CodeAnalyzer.visit ins l
  = CodeAnalyzer.Insights
      (CodeAnalyzer.functions ins ++ omap function_of l)
      (CodeAnalyzer.classes ins ++ omap class_of l)
      (CodeAnalyzer.imports ins ++ (l ≫= import_entries))
      (CodeAnalyzer.variables ins ++ (l ≫= assigned_names))
      (CodeAnalyzer.complexity_score ins)
      (CodeAnalyzer.suggestions ins)
      (CodeAnalyzer.syntax_error ins).
Proof.
  induction l as [|n l IH]; intros ins.
  - simpl. rewrite !app_nil_r. by destruct ins.
  - cbn [foldl]. rewrite IH.
    destruct n as [nm ln a cs|nm ln cs|names|[m|] names lvl|ts cs|cs]; simpl;
      rewrite <-?app_assoc; try done.
    destruct (bool_decide (m = EmptyString)); simpl; by rewrite <-?app_assoc.
Qed.

Lemma omap_length_filter {A B} (f : A → option B) (l : list A) :
  length (omap f l) = length (filter (λ x, is_Some (f x)) l).
Proof.
  induction l as [|x l IH]; [done|]. simpl. rewrite filter_cons.
  destruct (decide (is_Some (f x))) as [[y Hy]|Hn].
  - rewrite Hy. simpl. f_equal. exact IH.
  - destruct (f x) eqn:Hx; [destruct Hn; eauto|exact IH].
Qed.

Lemma count_functions tree :
  length (omap function_of (CodeAnalyzer.walk tree)) = count_nodes is_function tree.
Proof.
  unfold count_nodes. rewrite walk_descendants, omap_length_filter.
  f_equal. apply list_filter_iff. intros n. destruct n; simpl; split; try done;
    try (by intros [? ?]); eauto.
Qed.

Lemma count_classes tree :
  length (omap class_of (CodeAnalyzer.walk tree)) = count_nodes is_class tree.
Proof.
  unfold count_nodes. rewrite walk_descendants, omap_length_filter.
  f_equal. apply list_filter_iff. intros n. destruct n; simpl; split; try done;
    try (by intros [? ?]); eauto.
Qed.

(** X17. When the code parses, [analyze_code] lists one function for each
    function definition anywhere in the tree (methods and nested functions
    included) and one class for each class definition, and the complexity
    score is twice the former number plus three times the latter. *)
Theorem analyze_code_counts
    (ast_parse : string → result CodeAnalyzer.syntax)
    (len_strip : string → nat)
    (code : string) (tree : CodeAnalyzer.syntax) :
  ast_parse code = Return tree →
  ∃ ins, CodeAnalyzer.analyze_code ast_parse len_strip code = Return ins ∧
    length (CodeAnalyzer.functions ins) = count_nodes is_function tree ∧
    length (CodeAnalyzer.classes ins) = count_nodes is_class tree ∧
    CodeAnalyzer.complexity_score ins
    = 2 * count_nodes is_function tree + 3 * count_nodes is_class tree ∧
    CodeAnalyzer.syntax_error ins = None.
Proof.
  intros Hp. unfold CodeAnalyzer.analyze_code. rewrite Hp, visit_fold. simpl.
  eexists. split; [reflexivity|].
  repeat match goal with |- context [if ?b then _ else _] => destruct b end;
    simpl; rewrite count_functions, count_classes; split_and!; try done; lia.
Qed.

Lemma analyze_code_counts_witness :
  ∃ ins, CodeAnalyzer.analyze_code Sample.ast_parse Sample.len_strip "class C: ..." = Return ins ∧
    length (CodeAnalyzer.functions ins) = count_nodes is_function Sample.tree ∧
    length (CodeAnalyzer.classes ins) = count_nodes is_class Sample.tree ∧
    CodeAnalyzer.complexity_score ins
    = 2 * count_nodes is_function Sample.tree + 3 * count_nodes is_class Sample.tree ∧
    CodeAnalyzer.syntax_error ins = None.
Proof. apply analyze_code_counts. reflexivity. Defined.

(** X18. Of what [ast.parse] raises, [analyze_code] catches
    [SyntaxError] only: it then returns empty insights with the message
    under [syntax_error], and that key is set in no other case; any other
    exception of the parser leaves [analyze_code]. *)
Theorem analyze_code_syntax_error
    (ast_parse : string → result CodeAnalyzer.syntax)
    (len_strip : string → nat) (code : string) :
  (∀ msg, ast_parse code = Raise (SyntaxError msg) →
     CodeAnalyzer.analyze_code ast_parse len_strip code
     = Return (CodeAnalyzer.Insights [] [] [] [] 0 [] (Some msg))) ∧
  (∀ ins msg, CodeAnalyzer.analyze_code ast_parse len_strip code = Return ins →
     CodeAnalyzer.syntax_error ins = Some msg →
     ast_parse code = Raise (SyntaxError msg)) ∧
  (∀ e, CodeAnalyzer.analyze_code ast_parse len_strip code = Raise e ↔
        ast_parse code = Raise e ∧ ∀ msg, e ≠ SyntaxError msg).
Proof.
  unfold CodeAnalyzer.analyze_code. split_and!.
  - by intros msg ->.
  - intros ins msg. destruct (ast_parse code) as [tree|e].
    + rewrite visit_fold. simpl.
      repeat match goal with |- context [if ?b then _ else _] => destruct b end;
        by intros [= <-].
    + destruct e; try done. by intros [= <-] [= ->].
  - intros e. destruct (ast_parse code) as [tree|e'].
    + split; [done|]. by intros [? _].
    + destruct e'; split; try done; try (by intros [= <-]);
        try (intros [[= <-] H]; done).
      intros [[= <-] H]. by destruct (H msg).
Qed.

Lemma analyze_code_syntax_error_witness :
  CodeAnalyzer.analyze_code Sample.ast_parse Sample.len_strip "def ("
  = Return (CodeAnalyzer.Insights [] [] [] [] 0 [] (Some "invalid syntax")) ∧
  CodeAnalyzer.analyze_code Sample.ast_parse Sample.len_strip (String "000"%char EmptyString)
  = Raise (ValueError "source code string cannot contain null bytes").
Proof.
  split.
  - apply (proj1 (analyze_code_syntax_error Sample.ast_parse Sample.len_strip "def (")). reflexivity.
  - apply (proj2 (proj2 (analyze_code_syntax_error Sample.ast_parse Sample.len_strip
                           (String "000"%char EmptyString)))).
    split; [reflexivity|discriminate].
Defined.

(** X19. When the code parses, the suggestion to organise the code into
    functions is made exactly when the tree has no [FunctionDef] and no
    [ClassDef] node anywhere (an [async def] is neither) and
    [len(code.strip())], the number of characters of the code without its
    outer white space, is more than 50; the suggestion about imports is
    made exactly when more than five names are imported, and nothing else
    is suggested. *)
Theorem analyze_code_suggestions
    (ast_parse : string → result CodeAnalyzer.syntax)
    (len_strip : string → nat)
    (code : string) (tree : CodeAnalyzer.syntax) :
  ast_parse code = Return tree →
  ∃ ins, CodeAnalyzer.analyze_code ast_parse len_strip code = Return ins ∧
    CodeAnalyzer.imports ins = CodeAnalyzer.walk tree ≫= import_entries ∧
    CodeAnalyzer.suggestions ins
    = (if decide (count_nodes is_function tree = 0 ∧ count_nodes is_class tree = 0 ∧
                  50 < len_strip code)
       then ["Consider organizing your code into functions"] else [])
      ++ (if decide (5 < length (CodeAnalyzer.imports ins))
          then ["Consider organizing imports at the top"] else []).
Proof.
  intros Hp. unfold CodeAnalyzer.analyze_code. rewrite Hp, visit_fold.
  rewrite <-count_functions, <-count_classes. cbn [app CodeAnalyzer.functions
    CodeAnalyzer.classes CodeAnalyzer.imports CodeAnalyzer.suggestions].
  destruct (Nat.ltb_spec0 50 (len_strip code)) as [H50|H50];
    destruct (Nat.ltb_spec0 5 (length (CodeAnalyzer.walk tree ≫= import_entries)))
      as [H5|H5];
    destruct (omap function_of (CodeAnalyzer.walk tree)) as [|f fs];
    destruct (omap class_of (CodeAnalyzer.walk tree)) as [|c cs];
    cbn [CodeAnalyzer.is_nil andb length CodeAnalyzer.functions
         CodeAnalyzer.classes CodeAnalyzer.imports CodeAnalyzer.suggestions app];
    rewrite ?(proj2 (Nat.ltb_lt _ _) H5), ?(proj2 (Nat.ltb_ge _ _) (proj1 (Nat.nlt_ge _ _) H5));
    cbn [CodeAnalyzer.imports CodeAnalyzer.suggestions app];
    (eexists; split; [reflexivity|]); (split; [done|]);
    cbn [CodeAnalyzer.imports CodeAnalyzer.suggestions app];
    repeat case_decide; try done; try (simpl in *; lia).
Qed.

Lemma analyze_code_suggestions_witness :
  ∃ ins, CodeAnalyzer.analyze_code Sample.ast_parse Sample.len_strip "class C: ..." = Return ins ∧
    CodeAnalyzer.imports ins = CodeAnalyzer.walk Sample.tree ≫= import_entries ∧
    CodeAnalyzer.suggestions ins
    = (if decide (count_nodes is_function Sample.tree = 0 ∧
                  count_nodes is_class Sample.tree = 0 ∧
                  50 < Sample.len_strip "class C: ...")
       then ["Consider organizing your code into functions"] else [])
      ++ (if decide (5 < length (CodeAnalyzer.imports ins))
          then ["Consider organizing imports at the top"] else []).
Proof. apply analyze_code_suggestions. reflexivity. Defined.

Lemma split_dot_head_app_dot m rest :
  Str.split_dot_head (m +:+ "." +:+ rest) = Str.split_dot_head m.
Proof.
  induction m as [|c m IH]; [done|].
  unfold String.app in *. simpl. destruct (Str.is_dot c); [done|]. by rewrite IH.
Qed.

Lemma fmap_concat {A B} (f : A → B) (ls : list (list A)) :
  f <$> concat ls = concat ((λ l : list A, f <$> l) <$> ls).
Proof. induction ls as [|l ls IH]; [done|]. simpl. by rewrite fmap_app, IH. Qed.

(** The tree that [analyze_imports] walks has the erased nodes of the tree
    that [analyze_code] walks. *)
Lemma walk_erase tree : walk (erase tree) = erase <$> descendants tree.
Proof.
  induction tree as [n IH] using syntax_children_ind.
  assert (Hcs : concat (walk <$> (erase <$> iter_child_nodes n))
                = erase <$> concat (descendants <$> iter_child_nodes n)).
  { rewrite fmap_concat. f_equal.
    induction IH as [|c cs Hc _ IHcs]; simpl; [done|].
    f_equal; [exact Hc|exact IHcs]. }
  destruct n; simpl in *; by rewrite ?Hcs.
Qed.

Lemma import_entries_adds (n : CodeAnalyzer.syntax) x :
  (∀ module names level, n = CodeAnalyzer.ImportFrom module names level → names ≠ []) →
  (∃ entry, entry ∈ import_entries n ∧ x = Str.split_dot_head entry) ↔
  adds (erase n) x.
Proof.
  intros Hnamed.
  destruct n as [nm ln a cs|nm ln cs|names|[m|] names lvl|ts cs|cs]; simpl;
    try (split; [by intros (? & ?%elem_of_nil & _)|done]).
  - setoid_rewrite list_elem_of_fmap. naive_solver.
  - case_bool_decide as Hm.
    + split; [by intros (? & ?%elem_of_nil & _)|]. by intros [? _].
    + setoid_rewrite list_elem_of_fmap. split.
      * intros (entry & (a & -> & _) & ->). by rewrite split_dot_head_app_dot.
      * intros [_ ->]. destruct names as [|a names]; [by destruct (Hnamed _ _ _ eq_refl)|].
        exists (m +:+ "." +:+ name a). split; [exists a; split; [done|left]|].
        by rewrite split_dot_head_app_dot.
Qed.

(** X20. The two analyses agree on a tree in which every from-import
    names something: the top-level names of the imports that
    [analyze_code] lists are the names that [analyze_imports] collects
    from the same tree. *)
Theorem analyze_code_imports_agree
    (ast_parse : string → result CodeAnalyzer.syntax)
    (len_strip : string → nat)
    (code : string) (tree : CodeAnalyzer.syntax) (ins : CodeAnalyzer.insights) :
  ast_parse code = Return tree →
  from_imports_named tree →
  CodeAnalyzer.analyze_code ast_parse len_strip code = Return ins →
  list_to_set (Str.split_dot_head <$> CodeAnalyzer.imports ins)
  = tree_imports (erase tree).
Proof.
  intros Hp Hnamed Hins.
  destruct (analyze_code_suggestions ast_parse len_strip code tree Hp) as (ins' & Hins' & Him & _).
  rewrite Hins in Hins'. injection Hins' as <-. rewrite Him.
  apply set_eq. intros x.
  rewrite elem_of_list_to_set, list_elem_of_fmap.
  unfold tree_imports. rewrite elem_of_tree_fold, walk_erase.
  setoid_rewrite list_elem_of_fmap. setoid_rewrite list_elem_of_bind.
  setoid_rewrite walk_descendants. split.
  - intros (entry & -> & n & Hentry & Hn). right. exists (erase n).
    split; [by exists n|].
    apply import_entries_adds; [|by exists entry].
    intros m names lvl ->. by apply (Hnamed m names lvl).
  - intros [?|(? & (n & -> & Hn) & Hadds)]; [set_solver|].
    apply import_entries_adds in Hadds as (entry & Hentry & ->).
    + exists entry. split; [done|]. by exists n.
    + intros m names lvl ->. by apply (Hnamed m names lvl).
Qed.

Lemma analyze_code_imports_agree_witness :
  ∃ ins, CodeAnalyzer.analyze_code Sample.ast_parse Sample.len_strip "class C: ..." = Return ins ∧
    list_to_set (Str.split_dot_head <$> CodeAnalyzer.imports ins)
    = tree_imports (erase Sample.tree).
Proof.
  eexists. split; [vm_compute; reflexivity|].
  apply (analyze_code_imports_agree Sample.ast_parse Sample.len_strip "class C: ..." Sample.tree).
  - reflexivity.
  - intros m names lvl Hin. simpl in Hin.
    repeat (apply elem_of_cons in Hin as [Hin|Hin]; [by simplify_eq|]).
    by apply elem_of_nil in Hin.
  - vm_compute. reflexivity.
Defined.

(** ** Project files *)

Lemma directory_ind' (P : directory → Prop) :
  (∀ dirs files, Forall (λ entry, P entry.2) dirs → P (Dir dirs files)) →
  ∀ d, P d.
Proof.
  intros H. fix IH 1. intros [dirs files]. apply H.
  induction dirs as [|[name sub] dirs IHdirs]; constructor; [apply IH|exact IHdirs].
Qed.

Section ProjectFilesProps.

Variable path_join : string → string → string.
Variable exclude : gset string.

Lemma walk_python_files_dirs top dirs files :
  walk_python_files path_join exclude top (Dir dirs files)
  = (path_join top <$> filter (λ file, endswith file ".py" = true) files)
    ++ (dirs ≫= λ entry,
          if bool_decide (entry.1 ∈ exclude) then []
          else walk_python_files path_join exclude (path_join top entry.1) entry.2).
Proof.
  simpl. f_equal. induction dirs as [|[name sub] dirs IH]; [done|].
  simpl. by rewrite IH.
Qed.

Lemma elem_of_walk_python_files d : ∀ top p,
  p ∈ walk_python_files path_join exclude top d ↔
  ∃ comps file, file_at d comps file ∧ endswith file ".py" = true ∧
    (∀ c, c ∈ comps → c ∉ exclude) ∧
    p = path_join (foldl path_join top comps) file.
Proof.
  induction d as [dirs files IH] using directory_ind'. intros top p.
  rewrite walk_python_files_dirs, elem_of_app, list_elem_of_fmap, list_elem_of_bind.
  split.
  - intros [(file & -> & Hf)|([name sub] & Hp & Hin)].
    + apply list_elem_of_filter in Hf as [Hpy Hf].
      exists [], file. split_and!; [by constructor|done| |done].
      intros c Hc. by apply elem_of_nil in Hc.
    + simpl in Hp. case_bool_decide as Hex; [by apply elem_of_nil in Hp|].
      rewrite Forall_forall in IH.
      apply (IH (name, sub) Hin) in Hp as (comps & file & Hat & Hpy & Hcs & ->).
      exists (name :: comps), file. split_and!; [by econstructor|done| |done].
      intros c [->|Hc]%elem_of_cons; auto.
  - intros (comps & file & Hat & Hpy & Hcs & ->).
    inversion Hat as [? ? ? Hf|? ? name sub comps' ? Hin Hsub]; subst.
    + left. exists file. split; [done|]. by apply list_elem_of_filter.
    + right. exists (name, sub). split; [|done]. simpl.
      rewrite bool_decide_eq_false_2 by (apply Hcs; left).
      rewrite Forall_forall in IH. apply (IH (name, sub) Hin).
      exists comps', file. split_and!; [done..| |done].
      intros c Hc. apply Hcs. by right.
Qed.

End ProjectFilesProps.

(** X21. With a project open, [get_project_python_files] returns exactly
    the entries whose name ends in [.py] and that are reached from the
    project directory through directories none of which is excluded; the
    excluded names are the fixed ones, which include every candidate name
    of an environment, and the base name of the active environment. *)
Theorem get_project_python_files_scan
    (path_join : string → string → string) (basename : string → string)
    (tree : directory) (self : editor) (root : string) :
  editor_project_path self = Some root → root ≠ EmptyString →
  (∀ p, p ∈ get_project_python_files path_join basename tree self ↔
     ∃ comps file, file_at tree comps file ∧ endswith file ".py" = true ∧
       (∀ c, c ∈ comps → c ∉ exclude_dirs basename self) ∧
       p = path_join (foldl path_join root comps) file) ∧
  (∀ c, c ∈ venv_candidates → c ∈ exclude_dirs basename self) ∧
  (∀ v, venv_path (dependency_manager self) = Some v → v ≠ EmptyString →
     basename v ∈ exclude_dirs basename self).
Proof.
  intros Hroot Hne. split_and!.
  - intros p. unfold get_project_python_files. rewrite Hroot. simpl.
    rewrite bool_decide_eq_false_2 by done. simpl.
    apply elem_of_walk_python_files.
  - intros c Hc. unfold exclude_dirs.
    assert (c ∈ ({[ ".git"; "__pycache__"; "build"; "dist"; ".vscode";
                    "venv"; "env"; ".venv"; ".env" ]} : gset string)).
    { unfold venv_candidates in Hc. set_solver. }
    destruct (truthy (venv_path (dependency_manager self))); set_solver.
  - intros v Hv Hvne. unfold exclude_dirs. rewrite Hv.
    rewrite (proj2 (truthy_Some v) Hvne). set_solver.
Qed.

Lemma get_project_python_files_scan_witness :
  get_project_python_files Posix.join Sample.basename Sample.project Sample.ide
  = ["/p/main.py"; "/p/pkg/__init__.py"; "/p/pkg/core.py"] ∧
  ∀ p, p ∈ get_project_python_files Posix.join Sample.basename Sample.project Sample.ide ↔
     ∃ comps file, file_at Sample.project comps file ∧ endswith file ".py" = true ∧
       (∀ c, c ∈ comps → c ∉ exclude_dirs Sample.basename Sample.ide) ∧
       p = Posix.join (foldl Posix.join "/p" comps) file.
Proof.
  split; [vm_compute; reflexivity|].
  apply (get_project_python_files_scan Posix.join Sample.basename Sample.project
           Sample.ide "/p"); [reflexivity|discriminate].
Defined.

(** ** The dependency panel *)

Section PanelProps.

Variable builtin_module_names : list string.
Variable find_spec : string → find_spec_result.

Lemma elem_of_dependency_rows imports missing (installed : gmap string pyval) dep st :
  (dep, st) ∈ dependency_rows builtin_module_names find_spec imports missing installed ↔
  (dep ∈ imports ∨ is_Some (installed !! dep)) ∧
  is_standard_library builtin_module_names find_spec dep = false ∧
  st = (if bool_decide (dep ∈ missing) then Missing
        else ShownVersion (installed !! Str.lower dep)).
Proof.
  unfold dependency_rows. rewrite list_elem_of_bind.
  setoid_rewrite merge_sort_Permutation. setoid_rewrite elem_of_elements.
  setoid_rewrite elem_of_union. setoid_rewrite elem_of_dom. split.
  - intros (d & Hrow & Hd).
    destruct (is_standard_library _ _ d) eqn:Hstd; [by apply elem_of_nil in Hrow|].
    case_bool_decide as Hm; apply list_elem_of_singleton in Hrow;
      injection Hrow as -> ->; rewrite Hstd.
    + by rewrite bool_decide_eq_true_2.
    + by rewrite bool_decide_eq_false_2.
  - intros (Hd & Hstd & ->). exists dep. split; [|done]. rewrite Hstd.
    case_bool_decide; apply list_elem_of_singleton; done.
Qed.



Lemma missing_install_name imports (installed : gmap string pyval) dep :
  dep ∈ missing_packages builtin_module_names find_spec installed imports →
  import_to_package_map !! Str.lower dep = None ∧ installed !! Str.lower dep = None.
Proof.
  intros (imp & _ & _ & Hnone & ->)%elem_of_missing_packages.
  rewrite install_name_lower. split; [|done].
  unfold package_name, dict_get.
  destruct (import_to_package_map !! Str.lower imp) as [v|] eqn:Hv; simpl.
  - by apply alias_value in Hv as [_ ?].
  - exact Hv.
Qed.

End PanelProps.


(** X23. On the list that [get_missing_packages] computes, the panel and
    the list agree for an import that the alias table leaves alone: its row
    says [Missing] exactly when its lower-case name is not installed. An
    import that the table renames never gets a [Missing] row: its row shows
    what the installed mapping has under the import name, while its install
    name is in the list when the package is not installed. *)
Theorem dependency_rows_alias
    (builtin_module_names : list string) (find_spec : string → find_spec_result)
    (imports : gset string) (installed : gmap string pyval) (dep : string) :
  dep ∈ imports →
  is_standard_library builtin_module_names find_spec dep = false →
  let missing := missing_packages builtin_module_names find_spec installed imports in
  let rows := dependency_rows builtin_module_names find_spec imports missing installed in
  (import_to_package_map !! Str.lower dep = None →
   ((dep, Missing) ∈ rows ↔ installed !! Str.lower dep = None)) ∧
  (is_Some (import_to_package_map !! Str.lower dep) →
   ((dep, ShownVersion (installed !! Str.lower dep)) ∈ rows) ∧
   ((dep, Missing) ∉ rows) ∧
   (installed !! package_name dep = None →
    install_name dep ∈ missing ∧
    is_Some (install_all_button missing))).
Proof.
  intros Hin Hstd missing rows. subst rows. split.
  - intros Hplain. rewrite elem_of_dependency_rows. split.
    + intros (_ & _ & Hst). case_bool_decide as Hm; [|done].
      by apply missing_install_name in Hm as [_ ?].
    + intros Hnone. split_and!; [by left|done|].
      rewrite bool_decide_eq_true_2; [done|].
      apply elem_of_missing_packages. exists dep. split; [done|].
      unfold contributes, package_name, install_name, dict_get.
      by rewrite Hplain.
  - intros [v Hv].
    assert (Hnm : dep ∉ missing).
    { intros [Hm _]%missing_install_name. congruence. }
    split_and!.
    + apply elem_of_dependency_rows. split_and!; [by left|done|].
      by rewrite bool_decide_eq_false_2.
    + rewrite elem_of_dependency_rows. intros (_ & _ & Hst).
      by rewrite bool_decide_eq_false_2 in Hst.
    + intros Hnone.
      assert (Hm : install_name dep ∈ missing).
      { apply elem_of_missing_packages. by exists dep. }
      split; [done|]. unfold install_all_button.
      destruct missing; [by apply elem_of_nil in Hm|eauto].
Qed.

Lemma dependency_rows_alias_witness :
  (("cv2", ShownVersion None)
     ∈ dependency_rows Host.builtin_module_names Host.find_spec {[ "cv2" ]}
         (missing_packages Host.builtin_module_names Host.find_spec
            (∅ : gmap string pyval) {[ "cv2" ]}) ∅) ∧
  "opencv-python" ∈ missing_packages Host.builtin_module_names Host.find_spec
                      (∅ : gmap string pyval) {[ "cv2" ]}.
Proof.
  destruct (proj2 (dependency_rows_alias Host.builtin_module_names Host.find_spec
                     {[ "cv2" ]} ∅ "cv2" ltac:(set_solver) eq_refl))
    as (Hrow & _ & Hmiss).
  { vm_compute. eauto. }
  split; [exact Hrow|]. apply Hmiss. reflexivity.
Defined.

(** ** Installed packages, entry by entry *)

Lemma packages_dict_cons (str_lower : string → string) acc pkg rest :
  packages_dict str_lower acc (pkg :: rest)
  = (entry ← package_entry str_lower pkg; packages_dict str_lower (<[entry.1 := entry.2]> acc) rest).
Proof.
  unfold package_entry. simpl.
  destruct (py_getitem pkg "name") as [nm|]; simpl; [|done].
  destruct (py_lower str_lower nm) as [key|]; simpl; [|done].
  by destruct (py_getitem pkg "version").
Qed.

Lemma packages_dict_malformed (str_lower : string → string) items : ∀ acc pkg e,
  pkg ∈ items → package_entry str_lower pkg = Raise e →
  ∃ e', packages_dict str_lower acc items = Raise e'.
Proof.
  induction items as [|p items IH]; intros acc pkg e Hin He.
  - by apply elem_of_nil in Hin.
  - rewrite packages_dict_cons.
    destruct (package_entry str_lower p) as [entry|e0] eqn:Hp; simpl; [|eauto].
    apply elem_of_cons in Hin as [->|Hin]; [congruence|]. by eapply IH.
Qed.

Lemma packages_dict_last (str_lower : string → string) items : ∀ acc d k,
  packages_dict str_lower acc items = Return d →
  (∀ pkg entry, pkg ∈ items → package_entry str_lower pkg = Return entry → entry.1 ≠ k) →
  d !! k = acc !! k.
Proof.
  induction items as [|p items IH]; intros acc d k Hd Hk.
  - simpl in Hd. by simplify_eq.
  - rewrite packages_dict_cons in Hd.
    destruct (package_entry str_lower p) as [entry|e0] eqn:Hp; simpl in Hd; [|done].
    rewrite (IH _ _ _ Hd).
    + apply lookup_insert_ne. apply (Hk p); [left|done].
    + intros pkg entry' Hin. apply Hk. by right.
Qed.

Lemma packages_dict_app (str_lower : string → string) items1 items2 : ∀ acc,
  packages_dict str_lower acc (items1 ++ items2)
  = (acc' ← packages_dict str_lower acc items1; packages_dict str_lower acc' items2).
Proof.
  induction items1 as [|p items1 IH]; intros acc; [done|].
  rewrite <-app_comm_cons, !packages_dict_cons.
  destruct (package_entry str_lower p) as [entry|e0]; simpl; [|done]. apply IH.
Qed.

(** X24. When the list of the package manager has several entries whose
    names [str.lower] makes equal, the mapping holds, under that
    lower-cased name, the version of the last of them. *)
Theorem get_installed_packages_last_wins
    (run : list string → result completed_process)
    (json_loads : string → result pyval)
    (str_lower : string → string) (self : manager)
    (p : completed_process) (before after : list pyval) (pkg : pyval)
    (installed : gmap string pyval) (key : string) (version : pyval) :
  run (pip_list self) = Return p → returncode p = 0%Z →
  json_loads (stdout p) = Return (PyList (before ++ pkg :: after)) →
  get_installed_packages run json_loads str_lower self = Return installed →
  package_entry str_lower pkg = Return (key, version) →
  (∀ pkg' entry, pkg' ∈ after → package_entry str_lower pkg' = Return entry → entry.1 ≠ key) →
  Forall (λ pkg', ∃ entry, package_entry str_lower pkg' = Return entry) (before ++ after) →
  installed !! key = Some version.
Proof.
  intros Hrun Hrc Hjson Hget Hpkg Hafter Hwf.
  unfold get_installed_packages, list_packages, run_checked in Hget.
  rewrite Hrun in Hget. simpl in Hget.
  rewrite bool_decide_eq_true_2 in Hget by done. simpl in Hget.
  rewrite Hjson in Hget. simpl in Hget.
  rewrite packages_dict_app in Hget.
  destruct (packages_dict str_lower ∅ before) as [acc|e] eqn:Hb;
    cbv beta iota delta [mbind result_bind] in Hget.
  - rewrite packages_dict_cons, Hpkg in Hget.
    cbv beta iota delta [mbind result_bind fst snd] in Hget.
    destruct (packages_dict str_lower _ after) as [d|e] eqn:Ha; simplify_eq.
    + rewrite (packages_dict_last _ _ _ _ _ Ha Hafter). apply lookup_insert_eq.
    + exfalso. apply Forall_app in Hwf as [_ Hwf]. clear Hafter Hjson.
      revert Ha. generalize (<[key:=version]> acc).
      induction Hwf as [|q after [entry Hq] _ IH]; intros acc'; [done|].
      rewrite packages_dict_cons, Hq. simpl. apply IH.
  - exfalso. apply Forall_app in Hwf as [Hwf _]. clear Hget Hjson.
    revert Hb. generalize (∅ : gmap string pyval).
    induction Hwf as [|q before [entry Hq] _ IH]; intros acc'; [done|].
    rewrite packages_dict_cons, Hq. simpl. apply IH.
Qed.

Lemma get_installed_packages_last_wins_witness :
  ∃ installed, get_installed_packages Pip.run Pip.json_loads Pip.str_lower Pip.global
               = Return installed ∧
    installed !! "numpy" = Some (PyStr "2.0.0").
Proof.
  eexists. split; [vm_compute; reflexivity|].
  apply (get_installed_packages_last_wins Pip.run Pip.json_loads Pip.str_lower Pip.global
           (CompletedProcess 0 "[...]" "")
           [ PyDict [("name", PyStr "NumPy"); ("version", PyStr "1.26.0")];
             PyDict [("name", PyStr "requests"); ("version", PyStr "2.31.0")] ]
           []
           (PyDict [("name", PyStr "numpy"); ("version", PyStr "2.0.0")])).
  - reflexivity.
  - reflexivity.
  - reflexivity.
  - vm_compute. reflexivity.
  - reflexivity.
  - intros pkg' entry Hin. by apply elem_of_nil in Hin.
  - repeat constructor; eexists; reflexivity.
Defined.

(** X25. One entry that lacks [name] or [version], or whose [name] is not
    a string, empties the whole result: [get_installed_packages] returns
    the empty mapping, whatever the other entries are. *)
Theorem get_installed_packages_all_or_nothing
    (run : list string → result completed_process)
    (json_loads : string → result pyval)
    (str_lower : string → string) (self : manager)
    (p : completed_process) (items : list pyval) (pkg : pyval) (e : exn) :
  run (pip_list self) = Return p →
  json_loads (stdout p) = Return (PyList items) →
  pkg ∈ items → package_entry str_lower pkg = Raise e →
  get_installed_packages run json_loads str_lower self = Return ∅.
Proof.
  intros Hrun Hjson Hin He.
  unfold get_installed_packages, list_packages, run_checked.
  rewrite Hrun. simpl. case_bool_decide; [|done]. simpl. rewrite Hjson. simpl.
  destruct (packages_dict_malformed str_lower items ∅ pkg e Hin He) as [e' ->]. done.
Qed.

Lemma get_installed_packages_all_or_nothing_witness :
  get_installed_packages Pip.run
    (λ _, Return (PyList
       [ PyDict [("name", PyStr "numpy"); ("version", PyStr "2.0.0")];
         PyDict [("name", PyStr "requests")] ]))
    Pip.str_lower Pip.global
  = Return ∅.
Proof.
  apply (get_installed_packages_all_or_nothing Pip.run _ Pip.str_lower Pip.global
           (CompletedProcess 0 "[...]" "")
           [ PyDict [("name", PyStr "numpy"); ("version", PyStr "2.0.0")];
             PyDict [("name", PyStr "requests")] ]
           (PyDict [("name", PyStr "requests")]) (KeyError "version")).
  - reflexivity.
  - reflexivity.
  - right. left.
  - reflexivity.
Defined.

(** ** Installation, the start of the child *)

(** X26. With a sink, whatever [Popen] raises when the child cannot be
    started leaves [install_packages], the sink having received nothing,
    unless it is a [CalledProcessError]. *)
Theorem install_packages_start_fault
    (popen : list string → result process)
    (run : list string → result completed_process)
    (self : manager) (packages : list string) (cb : sink) (e : exn) :
  packages ≠ [] →
  popen ([python_executable self; "-m"; "pip"; "install"] ++ packages) = Raise e →
  (∀ rc str output, e ≠ CalledProcessError rc str output) →
  install_packages popen run self packages (Some cb) = ([], Raise e).
Proof.
  intros Hne Hp He. destruct packages as [|pkg packages]; [done|].
  unfold install_packages, install_try. rewrite Hp.
  destruct e as [rc str output| | | | | | |]; try done.
  by destruct (He rc str output).
Qed.

Lemma install_packages_start_fault_witness :
  install_packages Posix.popen_unavailable Posix.run_unavailable Posix.opened
    ["numpy"; "requests"] (Some Posix.take_line)
  = ([], Raise (OSError "No such file or directory")).
Proof.
  apply (install_packages_start_fault Posix.popen_unavailable Posix.run_unavailable
           Posix.opened ["numpy"; "requests"] Posix.take_line).
  - discriminate.
  - reflexivity.
  - discriminate.
Defined.
